(** * Sitronix ST7703 panel driver: command scripts and panel lifecycle

    A shallow embedding of [drivers/gpu/drm/panel/panel-sitronix-st7703.c].

    The driver is straight-line C that talks to four collaborators: the
    MIPI-DSI host, two regulators, the reset GPIO and the kernel's delay and
    logging primitives.  Every call into a collaborator is recorded, in call
    order, in a log; the values the collaborators return are supplied by a
    [platform].  Driver functions are computations in a state monad over the
    driver instance ([struct st7703]) and that log. *)

From Stdlib Require Import ZArith List String Bool Lia.
Import ListNotations.
Local Open Scope string_scope.
Local Open Scope list_scope.
Local Open Scope Z_scope.

(** ** Manufacturer specific commands sent via DSI *)

Definition ST7703_CMD_ALL_PIXEL_OFF : Z := 0x22.
Definition ST7703_CMD_ALL_PIXEL_ON  : Z := 0x23.
Definition ST7703_CMD_SETDISP       : Z := 0xB2.
Definition ST7703_CMD_SETRGBIF      : Z := 0xB3.
Definition ST7703_CMD_SETCYC        : Z := 0xB4.
Definition ST7703_CMD_SETBGP        : Z := 0xB5.
Definition ST7703_CMD_SETVCOM       : Z := 0xB6.
Definition ST7703_CMD_SETOTP        : Z := 0xB7.
Definition ST7703_CMD_SETPOWER_EXT  : Z := 0xB8.
Definition ST7703_CMD_SETEXTC       : Z := 0xB9.
Definition ST7703_CMD_SETMIPI       : Z := 0xBA.
Definition ST7703_CMD_SETVDC        : Z := 0xBC.
Definition ST7703_CMD_UNKNOWN_BF    : Z := 0xBF.
Definition ST7703_CMD_SETSCR        : Z := 0xC0.
Definition ST7703_CMD_SETPOWER      : Z := 0xC1.
Definition ST7703_CMD_SETPANEL      : Z := 0xCC.
Definition ST7703_CMD_UNKNOWN_C6    : Z := 0xC6.
Definition ST7703_CMD_SETGAMMA      : Z := 0xE0.
Definition ST7703_CMD_SETEQ         : Z := 0xE3.
Definition ST7703_CMD_SETGIP1       : Z := 0xE9.
Definition ST7703_CMD_SETGIP2       : Z := 0xEA.

(** ** Calls into the collaborators *)

(** The two supplies held by [struct st7703]. *)
Inductive regulator : Type := vcc | iovcc.

(** One constructor per kernel function the driver calls, with the arguments
    the driver passes.  A [u8] is a [Z]; the payload of a write is the
    [static const u8 d[]] array of the macro, [ARRAY_SIZE(d)] being its
    length. *)
Inductive op : Type :=
| mipi_dsi_generic_write (d : list Z)
| mipi_dsi_dcs_write (cmd : Z) (d : list Z)
| mipi_dsi_dcs_exit_sleep_mode
| mipi_dsi_dcs_set_display_on
| mipi_dsi_dcs_set_display_off
| mipi_dsi_dcs_enter_sleep_mode
| regulator_enable (r : regulator)
| regulator_disable (r : regulator)
| gpiod_set_value_cansleep (value : Z)
| usleep_range (lo hi : Z)
| msleep (msecs : Z)
| dev_err (fmt : string) (arg : Z)
| dev_info (fmt : string)
| dev_dbg (fmt : string)
| mipi_dsi_detach
| drm_panel_remove
| debugfs_remove_recursive.

(** The calls that put a packet on the DSI bus. *)
Definition is_bus (c : op) : bool :=
  match c with
  | mipi_dsi_generic_write _ | mipi_dsi_dcs_write _ _
  | mipi_dsi_dcs_exit_sleep_mode | mipi_dsi_dcs_set_display_on
  | mipi_dsi_dcs_set_display_off | mipi_dsi_dcs_enter_sleep_mode => true
  | _ => false
  end.

(** The bus transfers of a log, in order. *)
Definition bus_ops (l : list op) : list op := filter is_bus l.

(** ** Init scripts

    The body of an [..._init_sequence] function is a sequence of macro
    invocations and plain calls, closed by [return 0]. *)
Inductive stmt : Type :=
| dsi_generic_write_seq (seq : list Z)
| dsi_dcs_write_seq (cmd : Z) (seq : list Z)
| plain (c : op).

Coercion plain : op >-> stmt.

(** ** Driver data *)

Inductive mode_flag : Type :=
| MIPI_DSI_MODE_VIDEO
| MIPI_DSI_MODE_VIDEO_BURST
| MIPI_DSI_MODE_VIDEO_SYNC_PULSE.

Inductive mipi_dsi_pixel_format : Type := MIPI_DSI_FMT_RGB888.

Record st7703_panel_desc : Type := {
  lanes : Z;
  mode_flags : list mode_flag;
  format : mipi_dsi_pixel_format;
  init_sequence : list stmt
}.

Record st7703 : Type := {
  prepared : bool;
  desc : st7703_panel_desc
}.

(** The driver instance together with everything it has done so far. *)
Record world : Type := {
  ctx : st7703;
  log : list op
}.

(** What the collaborators answer.  The DSI host answers the [n]-th transfer
    it is handed (counting from 0 over the whole log) with the result of
    the call: negative for a rejected transfer. *)
Record platform : Type := {
  dsi_transfer : nat -> op -> Z;
  regulator_enable_ret : regulator -> Z;
  dsi_detach_ret : Z
}.

(** ** The monad *)

Definition M (A : Type) : Type := platform -> world -> A * world.

Definition Return {A} (a : A) : M A := fun _ w => (a, w).

Definition Bind {A B} (m : M A) (k : A -> M B) : M B :=
  fun p w => let (a, w') := m p w in k a p w'.

Declare Scope drv_scope.
Delimit Scope drv_scope with drv.
Notation "x <- m ;; k" := (Bind m (fun x => k))
  (at level 61, m at next level, right associativity) : drv_scope.
Notation "m ;; k" := (Bind m (fun _ => k))
  (at level 61, right associativity) : drv_scope.
Local Open Scope drv_scope.

(** The value a call returns to the driver. *)
Definition reply (p : platform) (l : list op) (c : op) : Z :=
  match c with
  | regulator_enable r => regulator_enable_ret p r
  | mipi_dsi_detach => dsi_detach_ret p
  | _ => if is_bus c then dsi_transfer p (List.length (bus_ops l)) c else 0
  end.

(** The world after the calls [l] have been made. *)
Definition emit (l : list op) (w : world) : world :=
  {| ctx := ctx w; log := log w ++ l |}.

(** Make the call: log it and hand back the collaborator's answer. *)
Definition perform (c : op) : M Z :=
  fun p w => (reply p (log w) c, emit [c] w).

Definition get_prepared : M bool := fun _ w => (prepared (ctx w), w).

(** The world with [ctx->prepared = b]. *)
Definition with_prepared (b : bool) (w : world) : world :=
  {| ctx := {| prepared := b; desc := desc (ctx w) |}; log := log w |}.

Definition set_prepared (b : bool) : M unit :=
  fun _ w => (tt, with_prepared b w).

Definition get_desc : M st7703_panel_desc := fun _ w => (desc (ctx w), w).

(** The value an [int] holds once a result has been stored in it: the
    write functions return [ssize_t], the macros keep it in [int ret]. *)
Definition to_int (x : Z) : Z := (x + 2 ^ 31) mod 2 ^ 32 - 2 ^ 31.

(** One statement of a script: [Some ret] when the macro executes its
    [return ret], [None] when control falls through to the next line. *)
Definition exec (s : stmt) : M (option Z) :=
  match s with
  | dsi_generic_write_seq seq =>
      r <- perform (mipi_dsi_generic_write seq) ;;
      let ret := to_int r in
      if ret <? 0 then Return (Some ret) else Return None
  | dsi_dcs_write_seq cmd seq =>
      r <- perform (mipi_dsi_dcs_write cmd seq) ;;
      let ret := to_int r in
      if ret <? 0 then Return (Some ret) else Return None
  | plain c => perform c ;; Return None
  end.

(** A whole function body: the statements top to bottom, then [return 0]. *)
Fixpoint run (body : list stmt) : M Z :=
  match body with
  | [] => Return 0
  | s :: rest =>
      r <- exec s ;;
      match r with
      | Some ret => Return ret
      | None => run rest
      end
  end.

(** ** Rocktech jh057n00900 *)

Definition jh057n_init_sequence : list stmt := [
  dsi_generic_write_seq [ST7703_CMD_SETEXTC;
                         0xF1; 0x12; 0x83];
  dsi_generic_write_seq [ST7703_CMD_SETRGBIF;
                         0x10; 0x10; 0x05; 0x05; 0x03; 0xFF; 0x00; 0x00;
                         0x00; 0x00];
  dsi_generic_write_seq [ST7703_CMD_SETSCR;
                         0x73; 0x73; 0x50; 0x50; 0x00; 0x00; 0x08; 0x70;
                         0x00];
  dsi_generic_write_seq [ST7703_CMD_SETVDC; 0x4E];
  dsi_generic_write_seq [ST7703_CMD_SETPANEL; 0x0B];
  dsi_generic_write_seq [ST7703_CMD_SETCYC; 0x80];
  dsi_generic_write_seq [ST7703_CMD_SETDISP; 0xF0; 0x12; 0x30];
  dsi_generic_write_seq [ST7703_CMD_SETEQ;
                         0x07; 0x07; 0x0B; 0x0B; 0x03; 0x0B; 0x00; 0x00;
                         0x00; 0x00; 0xFF; 0x00; 0xC0; 0x10];
  dsi_generic_write_seq [ST7703_CMD_SETBGP; 0x08; 0x08];
  plain (msleep 20);

  dsi_generic_write_seq [ST7703_CMD_SETVCOM; 0x3F; 0x3F];
  dsi_generic_write_seq [ST7703_CMD_UNKNOWN_BF; 0x02; 0x11; 0x00];
  dsi_generic_write_seq [ST7703_CMD_SETGIP1;
                         0x82; 0x10; 0x06; 0x05; 0x9E; 0x0A; 0xA5; 0x12;
                         0x31; 0x23; 0x37; 0x83; 0x04; 0xBC; 0x27; 0x38;
                         0x0C; 0x00; 0x03; 0x00; 0x00; 0x00; 0x0C; 0x00;
                         0x03; 0x00; 0x00; 0x00; 0x75; 0x75; 0x31; 0x88;
                         0x88; 0x88; 0x88; 0x88; 0x88; 0x13; 0x88; 0x64;
                         0x64; 0x20; 0x88; 0x88; 0x88; 0x88; 0x88; 0x88;
                         0x02; 0x88; 0x00; 0x00; 0x00; 0x00; 0x00; 0x00;
                         0x00; 0x00; 0x00; 0x00; 0x00; 0x00; 0x00];
  dsi_generic_write_seq [ST7703_CMD_SETGIP2;
                         0x02; 0x21; 0x00; 0x00; 0x00; 0x00; 0x00; 0x00;
                         0x00; 0x00; 0x00; 0x00; 0x02; 0x46; 0x02; 0x88;
                         0x88; 0x88; 0x88; 0x88; 0x88; 0x64; 0x88; 0x13;
                         0x57; 0x13; 0x88; 0x88; 0x88; 0x88; 0x88; 0x88;
                         0x75; 0x88; 0x23; 0x14; 0x00; 0x00; 0x02; 0x00;
                         0x00; 0x00; 0x00; 0x00; 0x00; 0x00; 0x00; 0x00;
                         0x00; 0x00; 0x00; 0x00; 0x00; 0x00; 0x30; 0x0A;
                         0xA5; 0x00; 0x00; 0x00; 0x00];
  dsi_generic_write_seq [ST7703_CMD_SETGAMMA;
                         0x00; 0x09; 0x0E; 0x29; 0x2D; 0x3C; 0x41; 0x37;
                         0x07; 0x0B; 0x0D; 0x10; 0x11; 0x0F; 0x10; 0x11;
                         0x18; 0x00; 0x09; 0x0E; 0x29; 0x2D; 0x3C; 0x41;
                         0x37; 0x07; 0x0B; 0x0D; 0x10; 0x11; 0x0F; 0x10;
                         0x11; 0x18]
].

Definition jh057n00900_panel_desc : st7703_panel_desc := {|
  lanes := 4;
  mode_flags := [MIPI_DSI_MODE_VIDEO; MIPI_DSI_MODE_VIDEO_BURST;
                 MIPI_DSI_MODE_VIDEO_SYNC_PULSE];
  format := MIPI_DSI_FMT_RGB888;
  init_sequence := jh057n_init_sequence
|}.

(** ** Xingbangda xbd599 *)

Definition xbd599_init_sequence : list stmt := [
  dsi_dcs_write_seq ST7703_CMD_SETEXTC [0xF1; 0x12; 0x83];
  dsi_dcs_write_seq ST7703_CMD_SETMIPI [0x33; 0x81; 0x05; 0xF9; 0x0E; 0x0E; 0x20; 0x00;
                                        0x00; 0x00; 0x00; 0x00; 0x00; 0x00; 0x44; 0x25;
                                        0x00; 0x91; 0x0A; 0x00; 0x00; 0x02; 0x4F; 0x11;
                                        0x00; 0x00; 0x37];
  dsi_dcs_write_seq ST7703_CMD_SETPOWER_EXT [0x25; 0x22; 0x20; 0x03];
  dsi_dcs_write_seq ST7703_CMD_SETRGBIF [0x10; 0x10; 0x05; 0x05; 0x03; 0xFF; 0x00; 0x00;
                                         0x00; 0x00];
  dsi_dcs_write_seq ST7703_CMD_SETSCR [0x73; 0x73; 0x50; 0x50; 0x00; 0xC0; 0x08; 0x70;
                                       0x00];
  dsi_dcs_write_seq ST7703_CMD_SETVDC [0x4E];
  dsi_dcs_write_seq ST7703_CMD_SETPANEL [0x0B];
  dsi_dcs_write_seq ST7703_CMD_SETCYC [0x80];
  dsi_dcs_write_seq ST7703_CMD_SETDISP [0xF0; 0x12; 0xF0];
  dsi_dcs_write_seq ST7703_CMD_SETEQ [0x00; 0x00; 0x0B; 0x0B; 0x10; 0x10; 0x00; 0x00;
                                      0x00; 0x00; 0xFF; 0x00; 0xC0; 0x10];
  dsi_dcs_write_seq ST7703_CMD_UNKNOWN_C6 [0x01; 0x00; 0xFF; 0xFF; 0x00];
  dsi_dcs_write_seq ST7703_CMD_SETPOWER [0x74; 0x00; 0x32; 0x32; 0x77; 0xF1; 0xFF; 0xFF;
                                         0xCC; 0xCC; 0x77; 0x77];
  dsi_dcs_write_seq ST7703_CMD_SETBGP [0x07; 0x07];
  plain (msleep 20);
  dsi_dcs_write_seq ST7703_CMD_SETVCOM [0x2C; 0x2C];
  dsi_dcs_write_seq ST7703_CMD_UNKNOWN_BF [0x02; 0x11; 0x00];
  dsi_dcs_write_seq ST7703_CMD_SETGIP1 [0x82; 0x10; 0x06; 0x05; 0xA2; 0x0A; 0xA5; 0x12;
                                        0x31; 0x23; 0x37; 0x83; 0x04; 0xBC; 0x27; 0x38;
                                        0x0C; 0x00; 0x03; 0x00; 0x00; 0x00; 0x0C; 0x00;
                                        0x03; 0x00; 0x00; 0x00; 0x75; 0x75; 0x31; 0x88;
                                        0x88; 0x88; 0x88; 0x88; 0x88; 0x13; 0x88; 0x64;
                                        0x64; 0x20; 0x88; 0x88; 0x88; 0x88; 0x88; 0x88;
                                        0x02; 0x88; 0x00; 0x00; 0x00; 0x00; 0x00; 0x00;
                                        0x00; 0x00; 0x00; 0x00; 0x00; 0x00; 0x00];
  dsi_dcs_write_seq ST7703_CMD_SETGIP2 [0x02; 0x21; 0x00; 0x00; 0x00; 0x00; 0x00; 0x00;
                                        0x00; 0x00; 0x00; 0x00; 0x02; 0x46; 0x02; 0x88;
                                        0x88; 0x88; 0x88; 0x88; 0x88; 0x64; 0x88; 0x13;
                                        0x57; 0x13; 0x88; 0x88; 0x88; 0x88; 0x88; 0x88;
                                        0x75; 0x88; 0x23; 0x14; 0x00; 0x00; 0x02; 0x00;
                                        0x00; 0x00; 0x00; 0x00; 0x00; 0x00; 0x00; 0x00;
                                        0x00; 0x00; 0x00; 0x00; 0x00; 0x00; 0x03; 0x0A;
                                        0xA5; 0x00; 0x00; 0x00; 0x00];
  dsi_dcs_write_seq ST7703_CMD_SETGAMMA [0x00; 0x09; 0x0D; 0x23; 0x27; 0x3C; 0x41; 0x35;
                                         0x07; 0x0D; 0x0E; 0x12; 0x13; 0x10; 0x12; 0x12;
                                         0x18; 0x00; 0x09; 0x0D; 0x23; 0x27; 0x3C; 0x41;
                                         0x35; 0x07; 0x0D; 0x0E; 0x12; 0x13; 0x10; 0x12;
                                         0x12; 0x18]
].

Definition xbd599_desc : st7703_panel_desc := {|
  lanes := 4;
  mode_flags := [MIPI_DSI_MODE_VIDEO; MIPI_DSI_MODE_VIDEO_SYNC_PULSE];
  format := MIPI_DSI_FMT_RGB888;
  init_sequence := xbd599_init_sequence
|}.

(** ** AZ Displays atm0784

    Every line of this script is a generic write of its own; the vendor's
    table gives each register as a [count, command] pair followed by one
    write per parameter byte. *)

Definition atm0784_init_sequence : list stmt := [
  plain (dev_info "Initializing atm0784...");
  plain (dev_info "Set EXTC");
  dsi_generic_write_seq [0x04; 0xB9];
  dsi_generic_write_seq [0xF1];
  dsi_generic_write_seq [0x12];
  dsi_generic_write_seq [0x83];
  plain (dev_info "Set RSO");
  dsi_generic_write_seq [0x04; 0xB2];
  dsi_generic_write_seq [0xC8];
  dsi_generic_write_seq [0x25];
  dsi_generic_write_seq [0xF0];
  plain (dev_info "Set RGB");
  dsi_generic_write_seq [0x0B; 0xB3];
  dsi_generic_write_seq [0x10];
  dsi_generic_write_seq [0x10];
  dsi_generic_write_seq [0x28];
  dsi_generic_write_seq [0x28];
  dsi_generic_write_seq [0x03];
  dsi_generic_write_seq [0xFF];
  dsi_generic_write_seq [0x00];
  dsi_generic_write_seq [0x00];
  dsi_generic_write_seq [0x00];
  dsi_generic_write_seq [0x00];
  plain (dev_info "Set Panel Inversion");
  dsi_generic_write_seq [0x02; 0xB4];
  dsi_generic_write_seq [0x80];
  plain (dev_info "Set BGP");
  dsi_generic_write_seq [0x03; 0xB5];
  dsi_generic_write_seq [0x0B];
  dsi_generic_write_seq [0x0B];
  plain (dev_info "Set VCOM");
  dsi_generic_write_seq [0x03; 0xB6];
  dsi_generic_write_seq [0x50];
  dsi_generic_write_seq [0x50];
  plain (dev_info "Set ECP");
  dsi_generic_write_seq [0x02; 0xB8];
  dsi_generic_write_seq [0x26];
  plain (dev_info "Set DSI");
  dsi_generic_write_seq [0x1C; 0xBA];
  dsi_generic_write_seq [0x81];
  dsi_generic_write_seq [0x05];
  dsi_generic_write_seq [0xF9];
  dsi_generic_write_seq [0x0E];
  dsi_generic_write_seq [0x0E];
  dsi_generic_write_seq [0x20];
  dsi_generic_write_seq [0x00];
  dsi_generic_write_seq [0x00];
  dsi_generic_write_seq [0x00];
  dsi_generic_write_seq [0x00];
  dsi_generic_write_seq [0x00];
  dsi_generic_write_seq [0x00];
  dsi_generic_write_seq [0x00];
  dsi_generic_write_seq [0x44];
  dsi_generic_write_seq [0x25];
  dsi_generic_write_seq [0x00];
  dsi_generic_write_seq [0x90];
  dsi_generic_write_seq [0x0A];
  dsi_generic_write_seq [0x00];
  dsi_generic_write_seq [0x00];
  dsi_generic_write_seq [0x01];
  dsi_generic_write_seq [0x4F];
  dsi_generic_write_seq [0x01];
  dsi_generic_write_seq [0x00];
  dsi_generic_write_seq [0x00];
  dsi_generic_write_seq [0x37];
  plain (dev_info "Set VDC");
  dsi_generic_write_seq [0x02; 0xBC];
  dsi_generic_write_seq [0x46];
  plain (dev_info "Set PCR");
  dsi_generic_write_seq [0x04; 0xBF];
  dsi_generic_write_seq [0x02];
  dsi_generic_write_seq [0x11];
  dsi_generic_write_seq [0x00];
  plain (dev_info "Set SCR");
  dsi_generic_write_seq [0x0A; 0xC0];
  dsi_generic_write_seq [0x73];
  dsi_generic_write_seq [0x73];
  dsi_generic_write_seq [0x50];
  dsi_generic_write_seq [0x50];
  dsi_generic_write_seq [0x00];
  dsi_generic_write_seq [0x00];
  dsi_generic_write_seq [0x08];
  dsi_generic_write_seq [0x70];
  dsi_generic_write_seq [0x00];
  plain (dev_info "Set POWER");
  dsi_generic_write_seq [0x0D; 0xC1];
  dsi_generic_write_seq [0x25];
  dsi_generic_write_seq [0x00];
  dsi_generic_write_seq [0x32];
  dsi_generic_write_seq [0x32];
  dsi_generic_write_seq [0x99];
  dsi_generic_write_seq [0xE4];
  dsi_generic_write_seq [0xFF];
  dsi_generic_write_seq [0xFF];
  dsi_generic_write_seq [0xEE];
  dsi_generic_write_seq [0xEE];
  dsi_generic_write_seq [0x77];
  dsi_generic_write_seq [0x77];
  plain (dev_info "Set Panel");
  dsi_generic_write_seq [0x02; 0xCC];
  dsi_generic_write_seq [0x0B];
  plain (dev_info "Set Gamma2.5");
  dsi_generic_write_seq [0x23; 0xE0];
  dsi_generic_write_seq [0x00];
  dsi_generic_write_seq [0x0D];
  dsi_generic_write_seq [0x14];
  dsi_generic_write_seq [0x2C];
  dsi_generic_write_seq [0x32];
  dsi_generic_write_seq [0x3F];
  dsi_generic_write_seq [0x47];
  dsi_generic_write_seq [0x3C];
  dsi_generic_write_seq [0x07];
  dsi_generic_write_seq [0x0E];
  dsi_generic_write_seq [0x10];
  dsi_generic_write_seq [0x13];
  dsi_generic_write_seq [0x15];
  dsi_generic_write_seq [0x13];
  dsi_generic_write_seq [0x14];
  dsi_generic_write_seq [0x0F];
  dsi_generic_write_seq [0x17];
  dsi_generic_write_seq [0x00];
  dsi_generic_write_seq [0x0D];
  dsi_generic_write_seq [0x14];
  dsi_generic_write_seq [0x2C];
  dsi_generic_write_seq [0x32];
  dsi_generic_write_seq [0x3F];
  dsi_generic_write_seq [0x47];
  dsi_generic_write_seq [0x3C];
  dsi_generic_write_seq [0x07];
  dsi_generic_write_seq [0x0E];
  dsi_generic_write_seq [0x10];
  dsi_generic_write_seq [0x13];
  dsi_generic_write_seq [0x15];
  dsi_generic_write_seq [0x13];
  dsi_generic_write_seq [0x14];
  dsi_generic_write_seq [0x0F];
  dsi_generic_write_seq [0x17];
  plain (dev_info "Set EQ");
  dsi_generic_write_seq [0x0F; 0xE3];
  dsi_generic_write_seq [0x07];
  dsi_generic_write_seq [0x07];
  dsi_generic_write_seq [0x0B];
  dsi_generic_write_seq [0x0B];
  dsi_generic_write_seq [0x03];
  dsi_generic_write_seq [0x03];
  dsi_generic_write_seq [0x00];
  dsi_generic_write_seq [0x00];
  dsi_generic_write_seq [0x00];
  dsi_generic_write_seq [0x00];
  dsi_generic_write_seq [0xFF];
  dsi_generic_write_seq [0x80];
  dsi_generic_write_seq [0xC0];
  dsi_generic_write_seq [0x10];
  plain (dev_info "Set GIP");
  dsi_generic_write_seq [0x40; 0xE9];
  dsi_generic_write_seq [0xC8];
  dsi_generic_write_seq [0x10];
  dsi_generic_write_seq [0x0A];
  dsi_generic_write_seq [0x10];
  dsi_generic_write_seq [0x0E];
  dsi_generic_write_seq [0x80];
  dsi_generic_write_seq [0x81];
  dsi_generic_write_seq [0x12];
  dsi_generic_write_seq [0x31];
  dsi_generic_write_seq [0x23];
  dsi_generic_write_seq [0x4F];
  dsi_generic_write_seq [0x86];
  dsi_generic_write_seq [0x80];
  dsi_generic_write_seq [0x38];
  dsi_generic_write_seq [0x47];
  dsi_generic_write_seq [0x08];
  dsi_generic_write_seq [0x00];
  dsi_generic_write_seq [0x0E];
  dsi_generic_write_seq [0x0C];
  dsi_generic_write_seq [0x00];
  dsi_generic_write_seq [0x02];
  dsi_generic_write_seq [0x00];
  dsi_generic_write_seq [0x00];
  dsi_generic_write_seq [0x0E];
  dsi_generic_write_seq [0x0C];
  dsi_generic_write_seq [0x00];
  dsi_generic_write_seq [0x02];
  dsi_generic_write_seq [0x00];
  dsi_generic_write_seq [0x8F];
  dsi_generic_write_seq [0x94];
  dsi_generic_write_seq [0x46];
  dsi_generic_write_seq [0x02];
  dsi_generic_write_seq [0x8A];
  dsi_generic_write_seq [0x02];
  dsi_generic_write_seq [0x88];
  dsi_generic_write_seq [0x88];
  dsi_generic_write_seq [0x88];
  dsi_generic_write_seq [0x88];
  dsi_generic_write_seq [0x88];
  dsi_generic_write_seq [0x8F];
  dsi_generic_write_seq [0x94];
  dsi_generic_write_seq [0x57];
  dsi_generic_write_seq [0x13];
  dsi_generic_write_seq [0x8A];
  dsi_generic_write_seq [0x13];
  dsi_generic_write_seq [0x88];
  dsi_generic_write_seq [0x88];
  dsi_generic_write_seq [0x88];
  dsi_generic_write_seq [0x88];
  dsi_generic_write_seq [0x88];
  dsi_generic_write_seq [0x00];
  dsi_generic_write_seq [0x00];
  dsi_generic_write_seq [0x00];
  dsi_generic_write_seq [0x01];
  dsi_generic_write_seq [0x00];
  dsi_generic_write_seq [0x80];
  dsi_generic_write_seq [0x38];
  dsi_generic_write_seq [0x00];
  dsi_generic_write_seq [0x00];
  dsi_generic_write_seq [0x00];
  dsi_generic_write_seq [0x00];
  dsi_generic_write_seq [0x00];
  dsi_generic_write_seq [0x00];
  plain (dev_info "Set GIP2");
  dsi_generic_write_seq [0x3E; 0xEA];
  dsi_generic_write_seq [0x00];
  dsi_generic_write_seq [0x1A];
  dsi_generic_write_seq [0x00];
  dsi_generic_write_seq [0x00];
  dsi_generic_write_seq [0x00];
  dsi_generic_write_seq [0x00];
  dsi_generic_write_seq [0x01];
  dsi_generic_write_seq [0x0C];
  dsi_generic_write_seq [0x41];
  dsi_generic_write_seq [0x01];
  dsi_generic_write_seq [0x02];
  dsi_generic_write_seq [0x00];
  dsi_generic_write_seq [0xF8];
  dsi_generic_write_seq [0x94];
  dsi_generic_write_seq [0x31];
  dsi_generic_write_seq [0x75];
  dsi_generic_write_seq [0x8A];
  dsi_generic_write_seq [0x31];
  dsi_generic_write_seq [0x88];
  dsi_generic_write_seq [0x88];
  dsi_generic_write_seq [0x88];
  dsi_generic_write_seq [0x88];
  dsi_generic_write_seq [0x88];
  dsi_generic_write_seq [0xF8];
  dsi_generic_write_seq [0x94];
  dsi_generic_write_seq [0x20];
  dsi_generic_write_seq [0x64];
  dsi_generic_write_seq [0x8A];
  dsi_generic_write_seq [0x20];
  dsi_generic_write_seq [0x88];
  dsi_generic_write_seq [0x88];
  dsi_generic_write_seq [0x88];
  dsi_generic_write_seq [0x88];
  dsi_generic_write_seq [0x88];
  dsi_generic_write_seq [0x23];
  dsi_generic_write_seq [0x00];
  dsi_generic_write_seq [0x00];
  dsi_generic_write_seq [0x01];
  dsi_generic_write_seq [0x28];
  dsi_generic_write_seq [0x00];
  dsi_generic_write_seq [0x00];
  dsi_generic_write_seq [0x00];
  dsi_generic_write_seq [0x00];
  dsi_generic_write_seq [0x00];
  dsi_generic_write_seq [0x00];
  dsi_generic_write_seq [0x00];
  dsi_generic_write_seq [0x00];
  dsi_generic_write_seq [0x00];
  dsi_generic_write_seq [0x00];
  dsi_generic_write_seq [0x00];
  dsi_generic_write_seq [0x05];
  dsi_generic_write_seq [0x0B];
  dsi_generic_write_seq [0x00];
  dsi_generic_write_seq [0x00];
  dsi_generic_write_seq [0x40];
  dsi_generic_write_seq [0x80];
  dsi_generic_write_seq [0x81];
  dsi_generic_write_seq [0x40];
  dsi_generic_write_seq [0x80];
  dsi_generic_write_seq [0x81];
  dsi_generic_write_seq [0x00]
].

Definition atm0784_desc : st7703_panel_desc := {|
  lanes := 2;
  mode_flags := [MIPI_DSI_MODE_VIDEO; MIPI_DSI_MODE_VIDEO_SYNC_PULSE];
  format := MIPI_DSI_FMT_RGB888;
  init_sequence := atm0784_init_sequence
|}.

(** The device table: which descriptor a compatible string selects. *)
Definition st7703_of_match : list (string * st7703_panel_desc) := [
  ("rocktech,jh057n00900", jh057n00900_panel_desc);
  ("xingbangda,xbd599", xbd599_desc);
  ("azdisplays,atm0784", atm0784_desc)
].

(** ** Panel lifecycle *)

(** [if (cond) stmt;] with no else branch. *)
Definition when (cond : bool) (m : M Z) : M unit :=
  if cond then m ;; Return tt else Return tt.

Definition st7703_enable : M Z :=
  d <- get_desc ;;
  ret <- run (init_sequence d) ;;
  if ret <? 0 then
    perform (dev_err "Panel init sequence failed: %d\n" ret) ;;
    Return ret
  else
  perform (msleep 20) ;;
  ret <- perform mipi_dsi_dcs_exit_sleep_mode ;;
  if ret <? 0 then
    perform (dev_err "Failed to exit sleep mode: %d\n" ret) ;;
    Return ret
  else
  (* Panel is operational 120 msec after reset *)
  perform (msleep 250) ;;
  ret <- perform mipi_dsi_dcs_set_display_on ;;
  if negb (ret =? 0) then Return ret else
  perform (msleep 50) ;;
  perform (dev_info "Panel init sequence done\n") ;;
  Return 0.

Definition st7703_disable : M Z :=
  ret <- perform mipi_dsi_dcs_set_display_off ;;
  when (ret <? 0)
    (perform (dev_err "Failed to turn off the display: %d\n" ret)) ;;
  ret <- perform mipi_dsi_dcs_enter_sleep_mode ;;
  when (ret <? 0)
    (perform (dev_err "Failed to enter sleep mode: %d\n" ret)) ;;
  Return 0.

Definition st7703_unprepare : M Z :=
  is_prepared <- get_prepared ;;
  if negb is_prepared then Return 0 else
  perform (gpiod_set_value_cansleep 1) ;;
  perform (regulator_disable iovcc) ;;
  perform (regulator_disable vcc) ;;
  set_prepared false ;;
  Return 0.

Definition st7703_prepare : M Z :=
  is_prepared <- get_prepared ;;
  if is_prepared then Return 0 else
  perform (dev_info "Resetting the panel\n") ;;
  ret <- perform (regulator_enable vcc) ;;
  if ret <? 0 then
    perform (dev_err "Failed to enable vcc supply: %d\n" ret) ;;
    Return ret
  else
  ret <- perform (regulator_enable iovcc) ;;
  if ret <? 0 then
    perform (dev_err "Failed to enable iovcc supply: %d\n" ret) ;;
    (* goto disable_vcc *)
    perform (regulator_disable vcc) ;;
    Return ret
  else
  perform (gpiod_set_value_cansleep 1) ;;
  perform (usleep_range 20 40) ;;
  perform (gpiod_set_value_cansleep 0) ;;
  perform (msleep 20) ;;
  set_prepared true ;;
  Return 0.

Record drm_panel_funcs : Type := {
  disable : M Z;
  unprepare : M Z;
  prepare : M Z;
  enable : M Z
}.

Definition st7703_drm_funcs : drm_panel_funcs := {|
  disable := st7703_disable;
  unprepare := st7703_unprepare;
  prepare := st7703_prepare;
  enable := st7703_enable
|}.

(** Modelled from the spec: the DRM core's [drm_panel_prepare],
    [drm_panel_enable], [drm_panel_disable] and [drm_panel_unprepare] are not
    part of this file.  The host display pipeline "calls Lifecycle State
    Machine operations", so each one is the call through the panel's
    [drm_panel_funcs] table; backlight handling is outside the driver. *)
Definition drm_panel_prepare (funcs : drm_panel_funcs) : M Z := prepare funcs.
Definition drm_panel_enable (funcs : drm_panel_funcs) : M Z := enable funcs.
Definition drm_panel_disable (funcs : drm_panel_funcs) : M Z := disable funcs.
Definition drm_panel_unprepare (funcs : drm_panel_funcs) : M Z :=
  unprepare funcs.

(** [msleep] takes an [unsigned int]; [val] is a [u64]. *)
Definition u64_mul (a b : Z) : Z := (a * b) mod 2 ^ 64.
Definition to_unsigned_int (a : Z) : Z := a mod 2 ^ 32.

Definition allpixelson_set (val : Z) : M Z :=
  perform (dev_dbg "Setting all pixels on\n") ;;
  r <- exec (dsi_generic_write_seq [ST7703_CMD_ALL_PIXEL_ON]) ;;
  match r with
  | Some ret => Return ret
  | None =>
      perform (msleep (to_unsigned_int (u64_mul val 1000))) ;;
      (* Reset the panel to get video back *)
      drm_panel_disable st7703_drm_funcs ;;
      drm_panel_unprepare st7703_drm_funcs ;;
      drm_panel_prepare st7703_drm_funcs ;;
      drm_panel_enable st7703_drm_funcs ;;
      Return 0
  end.

Definition st7703_debugfs_remove : M unit :=
  perform debugfs_remove_recursive ;; Return tt.

Definition st7703_shutdown : M unit :=
  ret <- drm_panel_unprepare st7703_drm_funcs ;;
  when (ret <? 0)
    (perform (dev_err "Failed to unprepare panel: %d\n" ret)) ;;
  ret <- drm_panel_disable st7703_drm_funcs ;;
  when (ret <? 0)
    (perform (dev_err "Failed to disable panel: %d\n" ret)) ;;
  Return tt.

Definition st7703_remove : M Z :=
  st7703_shutdown ;;
  ret <- perform mipi_dsi_detach ;;
  when (ret <? 0)
    (perform (dev_err "Failed to detach from DSI host: %d\n" ret)) ;;
  perform drm_panel_remove ;;
  st7703_debugfs_remove ;;
  Return 0.

(** ** Reading scripts and logs *)

(** The call a script statement makes. *)
Definition op_of (s : stmt) : op :=
  match s with
  | dsi_generic_write_seq seq => mipi_dsi_generic_write seq
  | dsi_dcs_write_seq cmd seq => mipi_dsi_dcs_write cmd seq
  | plain c => c
  end.

(** Whether the statement tests the result of its call. *)
Definition checked (s : stmt) : bool :=
  match s with
  | plain _ => false
  | _ => true
  end.

(** The bus writes a script issues when nothing fails. *)
Definition writes (body : list stmt) : list op := bus_ops (map op_of body).

(** Scripts put packets on the bus only through the two macros. *)
Definition script_ok (body : list stmt) : bool :=
  forallb (fun s => checked s || negb (is_bus (op_of s))) body.

(** Command id followed by the parameter bytes. *)
Definition wire_bytes (c : op) : list Z :=
  match c with
  | mipi_dsi_generic_write d => d
  | mipi_dsi_dcs_write cmd d => cmd :: d
  | _ => []
  end.



Definition is_u8 (b : Z) : bool := (0 <=? b) && (b <=? 255).

(** A freshly probed instance: [devm_kzalloc] zeroes [prepared]. *)
Definition probed (d : st7703_panel_desc) : world :=
  {| ctx := {| prepared := false; desc := d |}; log := [] |}.

(** A platform on which every call succeeds. *)
Definition all_ok : platform :=
  {| dsi_transfer := fun _ _ => 0;
     regulator_enable_ret := fun _ => 0;
     dsi_detach_ret := 0 |}.

(** A host that rejects transfer number [n] with [code] and accepts the
    others. *)
Definition reject_at (n : nat) (code : Z) : platform :=
  {| dsi_transfer := fun i _ => if Nat.eqb i n then code else 0;
     regulator_enable_ret := fun _ => 0;
     dsi_detach_ret := 0 |}.

(** A host that rejects every transfer with [code]. *)
Definition reject_all (code : Z) : platform :=
  {| dsi_transfer := fun _ _ => code;
     regulator_enable_ret := fun _ => 0;
     dsi_detach_ret := 0 |}.

(** Supplies that answer [rv] and [ri] to [regulator_enable]. *)
Definition supplies (rv ri : Z) : platform :=
  {| dsi_transfer := fun _ _ => 0;
     regulator_enable_ret := fun r => match r with vcc => rv | iovcc => ri end;
     dsi_detach_ret := 0 |}.

(** The settle delays of a script, in order. *)
Definition delays (body : list stmt) : list Z :=
  flat_map (fun s => match s with plain (msleep ms) => [ms] | _ => [] end) body.

(** Whether some [msleep] of the script stands between two of its writes;
    [seen] says that a write has already been passed. *)
Fixpoint mid_script_delay_from (seen : bool) (body : list stmt) : bool :=
  match body with
  | [] => false
  | s :: rest =>
      match s with
      | plain (msleep _) =>
          (seen && negb (Nat.eqb (List.length (writes rest)) 0))
          || mid_script_delay_from seen rest
      | _ => mid_script_delay_from (seen || is_bus (op_of s)) rest
      end
  end.

Definition mid_script_delay (body : list stmt) : bool :=
  mid_script_delay_from false body.

(** ** Command blocks of the atm0784 script

    A two-byte write [count, command] opens a block; the one-byte writes
    that follow, up to the next two-byte write, are its parameters. *)
Record block : Type := {
  count : Z;
  command : Z;
  params : list Z
}.

(** Group a list of write payloads into blocks.  The first component
    collects the one-byte writes met before any block was opened; [None]
    when a payload is neither one nor two bytes long. *)
Fixpoint group (payloads : list (list Z)) : option (list Z * list block) :=
  match payloads with
  | [] => Some ([], [])
  | d :: rest =>
      match group rest with
      | None => None
      | Some (ps, bs) =>
          match d with
          | [b] => Some (b :: ps, bs)
          | [n; cmd] =>
              Some ([], {| count := n; command := cmd; params := ps |} :: bs)
          | _ => None
          end
      end
  end.

(** The count byte is one (for the command) plus the number of parameters. *)
Definition count_matches (b : block) : bool :=
  count b =? 1 + Z.of_nat (List.length (params b)).

(** The regulators switched on, and off, by the calls of a log. *)
Definition enabled (l : list op) : list regulator :=
  flat_map (fun c => match c with regulator_enable r => [r] | _ => [] end) l.

Definition disabled (l : list op) : list regulator :=
  flat_map (fun c => match c with regulator_disable r => [r] | _ => [] end) l.

(** Calls that drive the reset line. *)
Definition is_reset (c : op) : bool :=
  match c with gpiod_set_value_cansleep _ => true | _ => false end.

(** ** What each script puts on the wire

    For each model, the bytes of the script's writes as the source lists
    them, command id first, one write after the other; and the number of
    bytes each write carries. *)







(** ** Balance of the regulator calls

    What the lifecycle's own calls, as logged, say about the supplies and
    the reset line. *)

Definition regulator_eqb (a b : regulator) : bool :=
  match a, b with
  | vcc, vcc | iovcc, iovcc => true
  | _, _ => false
  end.

(** What a call adds to the balance of regulator [r]: a
    [regulator_enable] that the platform answers without error counts
    one, a [regulator_disable] call counts minus one. *)
Definition supply_delta (p : platform) (r : regulator) (c : op) : Z :=
  match c with
  | regulator_enable r' =>
      if regulator_eqb r r' && (0 <=? regulator_enable_ret p r') then 1 else 0
  | regulator_disable r' => if regulator_eqb r r' then -1 else 0
  | _ => 0
  end.

(** Successful enables minus disable calls, over a log. *)
Definition supply_balance (p : platform) (r : regulator) (l : list op) : Z :=
  fold_right (fun c acc => supply_delta p r c + acc) 0 l.

(** The value the lifecycle last wrote to the reset GPIO, if it wrote
    any. *)
Definition reset_line (l : list op) : option Z :=
  fold_left (fun st c => match c with
                         | gpiod_set_value_cansleep v => Some v
                         | _ => st
                         end) l None.

(** Calls that touch a supply or the reset line. *)
Definition is_power (c : op) : bool :=
  match c with
  | regulator_enable _ | regulator_disable _ | gpiod_set_value_cansleep _ => true
  | _ => false
  end.

(** The calls logged so far agree with the [prepared] flag: for each
    supply, successful enables exceed disable calls by one while the flag
    is set and by none while it is clear; and while the flag is set the
    last write to the reset GPIO was 0. *)
Definition consistent (p : platform) (w : world) : Prop :=
  (forall r, supply_balance p r (log w)
             = if prepared (ctx w) then 1 else 0) /\
  (prepared (ctx w) = true -> reset_line (log w) = Some 0).

(** The entry points other code can call on a bound panel: the four
    [drm_panel_funcs], the shutdown hook and the debugfs attribute. *)
Inductive entry : Type :=
| call_prepare
| call_enable
| call_disable
| call_unprepare
| call_shutdown
| call_allpixelson (val : Z).

Definition enter (e : entry) : M unit :=
  match e with
  | call_prepare => st7703_prepare ;; Return tt
  | call_enable => st7703_enable ;; Return tt
  | call_disable => st7703_disable ;; Return tt
  | call_unprepare => st7703_unprepare ;; Return tt
  | call_shutdown => st7703_shutdown
  | call_allpixelson val => allpixelson_set val ;; Return tt
  end.

(** Any sequence of calls, in any order. *)
Fixpoint enter_all (es : list entry) : M unit :=
  match es with
  | [] => Return tt
  | e :: rest => enter e ;; enter_all rest
  end.

(** ** Binding a device: [st7703_probe]

    The probe path talks to other collaborators than the lifecycle does
    (devres allocation, GPIO and regulator lookup, panel registration, DSI
    attach, debugfs), so it has a log of its own. *)
Module Probe.

Definition DRV_NAME : string := "panel-sitronix-st7703".

Inductive gpiod_flags : Type := GPIOD_OUT_LOW.

(** The kernel functions [st7703_probe] and [st7703_debugfs_init] call.
    [dev_err] keeps the format string and the [%d] arguments; the
    arguments of the [dev_info] messages are values of kernel enums and
    helpers outside this file, so only the format string is kept. *)
Inductive call : Type :=
| devm_kzalloc
| devm_gpiod_get (con_id : string) (flags : gpiod_flags)
| mipi_dsi_set_drvdata
| of_device_get_match_data
| devm_regulator_get (id : string)
| drm_panel_init
| drm_panel_of_backlight
| drm_panel_add
| mipi_dsi_attach
| drm_panel_remove
| debugfs_create_dir (name : string)
| debugfs_create_file (name : string) (mode : Z)
| dev_err (fmt : string) (args : list Z)
| dev_info (fmt : string).

(** The fields of [struct mipi_dsi_device] the probe writes. *)
Record mipi_dsi_device : Type := {
  dsi_mode_flags : list mode_flag;
  dsi_format : mipi_dsi_pixel_format;
  dsi_lanes : Z
}.

(** The device being bound: the DSI device, its driver data and the calls
    made so far. *)
Record device : Type := {
  dsi : mipi_dsi_device;
  drvdata : option st7703;
  calls : list call
}.

(** What the collaborators answer during probe.  A lookup that returns
    [ERR_PTR(e)] is [Some e]; a valid handle is [None].  The two errno
    values come from kernel headers outside this file. *)
Record env : Type := {
  ENOMEM : Z;
  EPROBE_DEFER : Z;
  kzalloc_null : bool;
  reset_gpio_err : option Z;
  regulator_err : string -> option Z;
  backlight_ret : Z;
  attach_ret : Z
}.

Definition P (A : Type) : Type := env -> device -> A * device.

Definition Return {A} (a : A) : P A := fun _ s => (a, s).

Definition Bind {A B} (m : P A) (k : A -> P B) : P B :=
  fun e s => let (a, s') := m e s in k a e s'.

Declare Scope probe_scope.
Delimit Scope probe_scope with probe.
Notation "x <- m ;; k" := (Bind m (fun x => k))
  (at level 61, m at next level, right associativity) : probe_scope.
Notation "m ;; k" := (Bind m (fun _ => k))
  (at level 61, right associativity) : probe_scope.
Local Open Scope probe_scope.

(** Make a call and get the collaborator's answer [f]. *)
Definition perform {A} (c : call) (f : env -> A) : P A :=
  fun e s => (f e, {| dsi := dsi s; drvdata := drvdata s;
                      calls := calls s ++ [c] |}).

Definition do (c : call) : P unit := perform c (fun _ => tt).

Definition when (cond : bool) (m : P unit) : P unit :=
  if cond then m else Return tt.

(** [mipi_dsi_set_drvdata(dsi, ctx)] on the zeroed [ctx], whose [desc] is
    assigned right after. *)
Definition set_drvdata (c : st7703) : P unit :=
  fun _ s => (tt, {| dsi := dsi s; drvdata := Some c; calls := calls s |}).

(** [dsi->mode_flags], [dsi->format] and [dsi->lanes] from the descriptor. *)
Definition configure_dsi (d : st7703_panel_desc) : P unit :=
  fun _ s => (tt, {| dsi := {| dsi_mode_flags := mode_flags d;
                              dsi_format := format d;
                              dsi_lanes := lanes d |};
                     drvdata := drvdata s; calls := calls s |}).

Definition st7703_debugfs_init : P unit :=
  do (debugfs_create_dir DRV_NAME) ;;
  do (debugfs_create_file "allpixelson" 384 (* 0600 *)).

(** [d] is the match data of the device being bound. *)
Definition st7703_probe (d : st7703_panel_desc) : P Z :=
  is_null <- perform devm_kzalloc kzalloc_null ;;
  if is_null then fun e => Return (- ENOMEM e) e else
  reset_gpio <- perform (devm_gpiod_get "reset" GPIOD_OUT_LOW) reset_gpio_err ;;
  match reset_gpio with
  | Some err =>
      do (dev_err "cannot get reset gpio\n" []) ;;
      Return err
  | None =>
  do mipi_dsi_set_drvdata ;;
  do of_device_get_match_data ;;
  set_drvdata {| prepared := false; desc := d |} ;;
  configure_dsi d ;;
  do (dev_info "lanes: %d\n") ;;
  do (dev_info "format: %d\n") ;;
  do (dev_info "mode_flags: %lu\n") ;;
  vcc <- perform (devm_regulator_get "vcc") (fun e => regulator_err e "vcc") ;;
  match vcc with
  | Some ret =>
      (fun e =>
         when (negb (ret =? - EPROBE_DEFER e))
           (do (dev_err "Failed to request vcc regulator: %d\n" [ret])) e) ;;
      Return ret
  | None =>
  iovcc <- perform (devm_regulator_get "iovcc")
                   (fun e => regulator_err e "iovcc") ;;
  match iovcc with
  | Some ret =>
      (fun e =>
         when (negb (ret =? - EPROBE_DEFER e))
           (do (dev_err "Failed to request iovcc regulator: %d\n" [ret])) e) ;;
      Return ret
  | None =>
  do drm_panel_init ;;
  ret <- perform drm_panel_of_backlight backlight_ret ;;
  if negb (ret =? 0) then Return ret else
  do drm_panel_add ;;
  ret <- perform mipi_dsi_attach attach_ret ;;
  if ret <? 0 then
    do (dev_err "mipi_dsi_attach failed (%d). Is host ready?\n" [ret]) ;;
    do drm_panel_remove ;;
    Return ret
  else
  do (dev_info "%ux%u@%u %ubpp dsi %udl - ready\n") ;;
  st7703_debugfs_init ;;
  Return 0
  end end end.

(** How often a call occurs in a log. *)
Definition occurrences (same : call -> bool) (l : list call) : nat :=
  List.length (filter same l).

Definition is_panel_add (c : call) : bool :=
  match c with drm_panel_add => true | _ => false end.

Definition is_panel_remove (c : call) : bool :=
  match c with drm_panel_remove => true | _ => false end.

Definition is_debugfs (c : call) : bool :=
  match c with
  | debugfs_create_dir _ | debugfs_create_file _ _ => true
  | _ => false
  end.

Definition is_dev_err (c : call) : bool :=
  match c with dev_err _ _ => true | _ => false end.

(** Every collaborator succeeds. *)
Definition all_succeed (e : env) : bool :=
  negb (kzalloc_null e)
  && match reset_gpio_err e with None => true | Some _ => false end
  && match regulator_err e "vcc" with None => true | Some _ => false end
  && match regulator_err e "iovcc" with None => true | Some _ => false end
  && (backlight_ret e =? 0)
  && negb (attach_ret e <? 0).

(** A device before probe, and an environment in which nothing fails. *)
Definition unbound (d0 : mipi_dsi_device) : device :=
  {| dsi := d0; drvdata := None; calls := [] |}.

Definition blank_dsi : mipi_dsi_device :=
  {| dsi_mode_flags := []; dsi_format := MIPI_DSI_FMT_RGB888; dsi_lanes := 0 |}.

Definition healthy : env :=
  {| ENOMEM := 12; EPROBE_DEFER := 517;
     kzalloc_null := false;
     reset_gpio_err := None;
     regulator_err := fun _ => None;
     backlight_ret := 0;
     attach_ret := 0 |}.

(** As [healthy], but the lookup of regulator [id] answers [ERR_PTR(err)]. *)
Definition regulator_missing (id : string) (err : Z) : env :=
  {| ENOMEM := 12; EPROBE_DEFER := 517;
     kzalloc_null := false;
     reset_gpio_err := None;
     regulator_err := fun i => if String.eqb i id then Some err else None;
     backlight_ret := 0;
     attach_ret := 0 |}.

(** As [healthy], but [mipi_dsi_attach] answers [err]. *)
Definition attach_fails (err : Z) : env :=
  {| ENOMEM := 12; EPROBE_DEFER := 517;
     kzalloc_null := false;
     reset_gpio_err := None;
     regulator_err := fun _ => None;
     backlight_ret := 0;
     attach_ret := err |}.

End Probe.

(** Unfold the monad and the answers of the platform. *)
Ltac reduce_step :=
  cbv beta iota delta [Bind when perform Return get_prepared get_desc
                       set_prepared reply is_bus negb].

(** Step through a lifecycle function, deciding each test on a return value
    from the hypotheses at hand. *)
Ltac step_through :=
  reduce_step;
  repeat match goal with
         | |- context [?x <? 0] =>
             destruct (Z.ltb_spec x 0); try lia; reduce_step
         | |- context [?x =? 0] =>
             destruct (Z.eqb_spec x 0); try lia; try congruence; reduce_step
         end.

(** Unfold the probe monad. *)
Ltac probe_step :=
  cbv beta iota delta [Probe.st7703_probe Probe.st7703_debugfs_init
                       Probe.Bind Probe.Return Probe.perform Probe.do
                       Probe.when Probe.set_drvdata Probe.configure_dsi
                       negb];
  cbn [Probe.dsi Probe.drvdata Probe.calls].

(** Name the calls probe has added to the log. *)
Ltac probe_calls :=
  eexists;
  split; [cbn [snd Probe.calls]; rewrite <- ?app_assoc; reflexivity|];
  cbn [fst].

(** * Properties *)

(** ** Logs *)

Lemma emit_nil (w : world) : emit [] w = w.
Proof. destruct w; unfold emit; simpl; now rewrite app_nil_r. Qed.

Lemma emit_emit (l1 l2 : list op) (w : world) :
  emit l2 (emit l1 w) = emit (l1 ++ l2) w.
Proof. unfold emit; simpl; now rewrite app_assoc. Qed.

Lemma bus_ops_app (l1 l2 : list op) :
  bus_ops (l1 ++ l2) = bus_ops l1 ++ bus_ops l2.
Proof. apply filter_app. Qed.

Lemma prepared_emit (l : list op) (w : world) :
  prepared (ctx (emit l w)) = prepared (ctx w).
Proof. reflexivity. Qed.

(** A value that fits an [int] is stored unchanged. *)
Lemma to_int_small (x : Z) : - 2 ^ 31 <= x < 2 ^ 31 -> to_int x = x.
Proof.
  intros H. unfold to_int.
  change (2 ^ 31) with 2147483648 in *. change (2 ^ 32) with 4294967296.
  rewrite Z.mod_small; lia.
Qed.

Lemma to_int_range (x : Z) : - 2 ^ 31 <= to_int x < 2 ^ 31.
Proof.
  unfold to_int.
  change (2 ^ 31) with 2147483648. change (2 ^ 32) with 4294967296.
  pose proof (Z.mod_pos_bound (x + 2147483648) 4294967296). lia.
Qed.

(** ** Running a script *)

Section Run.
Variable p : platform.

(** A macro hands its packet to the DSI host and gets the host's answer. *)
Lemma reply_checked (s : stmt) (l : list op) :
  checked s = true ->
  reply p l (op_of s) = dsi_transfer p (List.length (bus_ops l)) (op_of s).
Proof. destruct s; simpl; intros H; try reflexivity; discriminate. Qed.

Lemma run_cons (s : stmt) (rest : list stmt) (w : world) :
run (s :: rest) p w =
if checked s && (to_int (reply p (log w) (op_of s)) <? 0)
then (to_int (reply p (log w) (op_of s)), emit [op_of s] w)
else run rest p (emit [op_of s] w).
Proof.
destruct s; simpl; unfold Bind, perform; simpl;
  try (destruct (_ <? 0)); reflexivity.
Qed.

(** Whatever the collaborators answer, the calls a script makes are an
    initial segment of its statements, in the order they are written. *)
Lemma run_prefix (body : list stmt) :
  forall w, exists n,
    snd (run body p w) = emit (firstn n (map op_of body)) w.
Proof.
  induction body as [|s rest IH]; intros w.
  - exists 0%nat. simpl. now rewrite emit_nil.
  - rewrite run_cons.
    destruct (checked s && (to_int (reply p (log w) (op_of s)) <? 0)).
    + exists 1%nat. reflexivity.
    + destruct (IH (emit [op_of s] w)) as [n Hn].
      exists (S n). rewrite Hn, emit_emit. reflexivity.
Qed.

(** On a host none of whose answers is negative once stored in [int ret],
    the whole script runs. *)
Lemma run_accepted (body : list stmt) :
  (forall n c, 0 <= to_int (dsi_transfer p n c)) ->
  forall w, run body p w = (0, emit (map op_of body) w).
Proof.
  intros Hok. induction body as [|s rest IH]; intros w.
  - simpl. now rewrite emit_nil.
  - rewrite run_cons.
    destruct (checked s) eqn:Hs; simpl.
    + rewrite (reply_checked s (log w) Hs).
      destruct (Z.ltb_spec (to_int (dsi_transfer p
                              (List.length (bus_ops (log w))) (op_of s))) 0)
        as [Hlt|_].
      * specialize (Hok (List.length (bus_ops (log w))) (op_of s)). lia.
      * now rewrite IH, emit_emit.
    + now rewrite IH, emit_emit.
Qed.

End Run.

Lemma in_of_match (name : string) (d : st7703_panel_desc) :
  In (name, d) st7703_of_match ->
  (name, d) = ("rocktech,jh057n00900", jh057n00900_panel_desc) \/
  (name, d) = ("xingbangda,xbd599", xbd599_desc) \/
  (name, d) = ("azdisplays,atm0784", atm0784_desc).
Proof.
  intros [H|[H|[H|[]]]]; symmetry in H; auto.
Qed.



(** The scripts issue 14, 18 and 263 writes. *)
Example init_script_sizes :
  List.length (writes jh057n_init_sequence) = 14%nat /\
  List.length (writes xbd599_init_sequence) = 18%nat /\
  List.length (writes atm0784_init_sequence) = 263%nat /\
  List.length (flat_map wire_bytes (writes atm0784_init_sequence)) = 280%nat.
Proof. repeat split; vm_compute; reflexivity. Qed.

(** C5, as the code has it.  Every script is straight-line: whatever the
    collaborators answer, the calls it makes are an initial segment of its
    statements in the order written.  The jh057n00900 and xbd599 scripts
    each contain exactly one settle delay, [msleep(20)], mid-script between
    the SETBGP write and the SETVCOM write; the atm0784 script contains no
    delay at all. *)
Theorem init_scripts_straight_line_delays :
  (forall p d w,
     exists n,
       snd (run (init_sequence d) p w)
       = emit (firstn n (map op_of (init_sequence d))) w) /\
  (exists pre post,
     jh057n_init_sequence =
       pre ++ [dsi_generic_write_seq [ST7703_CMD_SETBGP; 0x08; 0x08];
               plain (msleep 20);
               dsi_generic_write_seq [ST7703_CMD_SETVCOM; 0x3F; 0x3F]] ++ post
     /\ delays pre = [] /\ delays post = []) /\
  (exists pre post,
     xbd599_init_sequence =
       pre ++ [dsi_dcs_write_seq ST7703_CMD_SETBGP [0x07; 0x07];
               plain (msleep 20);
               dsi_dcs_write_seq ST7703_CMD_SETVCOM [0x2C; 0x2C]] ++ post
     /\ delays pre = [] /\ delays post = []) /\
  delays atm0784_init_sequence = [].
Proof.
  split; [|split; [|split]].
  - intros p d w. apply run_prefix.
  - exists (firstn 8 jh057n_init_sequence), (skipn 11 jh057n_init_sequence).
    repeat split.
  - exists (firstn 12 xbd599_init_sequence), (skipn 15 xbd599_init_sequence).
    repeat split.
  - vm_compute. reflexivity.
Qed.

(** C5 as stated fails: the atm0784 script has no delay between two of its
    writes. *)
Lemma atm0784_no_mid_script_delay :
  ~ (forall name d, In (name, d) st7703_of_match ->
       mid_script_delay (init_sequence d) = true).
Proof.
  intros H.
  specialize (H "azdisplays,atm0784" atm0784_desc).
  assert (Hin : In ("azdisplays,atm0784", atm0784_desc) st7703_of_match)
    by (simpl; auto).
  apply H in Hin. vm_compute in Hin. discriminate Hin.
Qed.

Example mid_script_delay_others :
  mid_script_delay jh057n_init_sequence = true /\
  mid_script_delay xbd599_init_sequence = true.
Proof. split; vm_compute; reflexivity. Qed.

(** ** A rejected write *)

Lemma checked_is_bus (s : stmt) : checked s = true -> is_bus (op_of s) = true.
Proof. destruct s; simpl; intros H; try reflexivity; discriminate. Qed.

Lemma writes_cons_checked (s : stmt) (rest : list stmt) :
  checked s = true -> writes (s :: rest) = op_of s :: writes rest.
Proof.
  intros H. unfold writes, bus_ops. simpl.
  now rewrite (checked_is_bus s H).
Qed.

Lemma writes_cons_silent (s : stmt) (rest : list stmt) :
  is_bus (op_of s) = false -> writes (s :: rest) = writes rest.
Proof. intros H. unfold writes, bus_ops. simpl. now rewrite H. Qed.

Lemma bus_count_emit_bus (c : op) (w : world) :
  is_bus c = true ->
  List.length (bus_ops (log (emit [c] w))) = S (List.length (bus_ops (log w))).
Proof.
  intros H. simpl. rewrite bus_ops_app, length_app. simpl.
  rewrite H. simpl. lia.
Qed.

Lemma bus_count_emit_silent (c : op) (w : world) :
  is_bus c = false ->
  List.length (bus_ops (log (emit [c] w))) = List.length (bus_ops (log w)).
Proof.
  intros H. simpl. rewrite bus_ops_app, length_app. simpl.
  rewrite H. simpl. lia.
Qed.

(** A script never issues the two built-in commands of [st7703_enable]. *)
Lemma script_ok_no_builtin (body : list stmt) (c : op) :
  script_ok body = true ->
  In c (map op_of body) ->
  c <> mipi_dsi_dcs_exit_sleep_mode /\ c <> mipi_dsi_dcs_set_display_on.
Proof.
  intros Hok Hin. apply in_map_iff in Hin. destruct Hin as [s [<- Hs]].
  unfold script_ok in Hok. rewrite forallb_forall in Hok.
  specialize (Hok s Hs).
  destruct s as [seq|cmd seq|c]; simpl in *; try (split; discriminate).
  destruct c; simpl in Hok; split; discriminate.
Qed.

Section Rejected.
Variable p : platform.

(** If write number [k] (counting from 0) of the script is the first one
    whose answer is negative once stored in [int ret], the script stops
    right there: it has made the calls [done] that precede that write,
    then the write, and returns the stored code. *)
Lemma run_rejected (body : list stmt) :
  script_ok body = true ->
  forall w k wr code,
    nth_error (writes body) k = Some wr ->
    (forall i c, (i < k)%nat -> nth_error (writes body) i = Some c ->
       0 <= to_int (dsi_transfer p (List.length (bus_ops (log w)) + i) c)) ->
    to_int (dsi_transfer p (List.length (bus_ops (log w)) + k) wr) = code ->
    code < 0 ->
    exists done rest,
      map op_of body = done ++ wr :: rest /\
      bus_ops (done ++ [wr]) = firstn (S k) (writes body) /\
      run body p w = (code, emit (done ++ [wr]) w).
Proof.
  induction body as [|s body' IH]; intros Hok w k wr code Hk Hacc Hrej Hneg.
  - destruct k; discriminate Hk.
  - simpl in Hok. apply andb_prop in Hok. destruct Hok as [Hs Hok'].
    rewrite run_cons.
    destruct (checked s) eqn:Hc.
    + pose proof (checked_is_bus s Hc) as Hbus.
      rewrite (writes_cons_checked s body' Hc) in *.
      rewrite (reply_checked p s (log w) Hc). simpl andb.
      destruct k as [|k'].
      * injection Hk as <-.
        rewrite Nat.add_0_r in Hrej. rewrite Hrej.
        destruct (Z.ltb_spec code 0) as [_|Hge]; [|lia].
        exists [], (map op_of body'). simpl. rewrite Hbus. auto.
      * simpl in Hk.
        assert (H0 : 0 <= to_int (dsi_transfer p
                            (List.length (bus_ops (log w))) (op_of s))).
        { specialize (Hacc 0%nat (op_of s)). rewrite Nat.add_0_r in Hacc.
          apply Hacc; [lia|reflexivity]. }
        destruct (Z.ltb_spec (to_int (dsi_transfer p
                                (List.length (bus_ops (log w))) (op_of s))) 0)
          as [Hlt|_]; [lia|].
        destruct (IH Hok' (emit [op_of s] w) k' wr code Hk)
          as [done [rest [Hmap [Hbo Hrun]]]].
        { intros i c Hi Hnth. rewrite (bus_count_emit_bus _ w Hbus).
          replace (S (List.length (bus_ops (log w))) + i)%nat
            with (List.length (bus_ops (log w)) + S i)%nat by lia.
          apply Hacc; [lia|exact Hnth]. }
        { rewrite (bus_count_emit_bus _ w Hbus).
          replace (S (List.length (bus_ops (log w))) + k')%nat
            with (List.length (bus_ops (log w)) + S k')%nat by lia.
          exact Hrej. }
        { exact Hneg. }
        exists (op_of s :: done), rest. repeat split.
        -- simpl. now rewrite Hmap.
        -- change ((op_of s :: done) ++ [wr])
             with ([op_of s] ++ (done ++ [wr])).
           rewrite bus_ops_app, Hbo. simpl. now rewrite Hbus.
        -- rewrite Hrun, emit_emit. reflexivity.
    + simpl in Hs. apply negb_true_iff in Hs.
      rewrite (writes_cons_silent s body' Hs) in *. simpl andb.
      destruct (IH Hok' (emit [op_of s] w) k wr code Hk)
        as [done [rest [Hmap [Hbo Hrun]]]].
      { intros i c Hi Hnth. rewrite (bus_count_emit_silent _ w Hs).
        now apply Hacc. }
      { now rewrite (bus_count_emit_silent _ w Hs). }
      { exact Hneg. }
      exists (op_of s :: done), rest. repeat split.
      * simpl. now rewrite Hmap.
      * change ((op_of s :: done) ++ [wr])
          with ([op_of s] ++ (done ++ [wr])).
        rewrite bus_ops_app, Hbo. simpl. now rewrite Hs.
      * rewrite Hrun, emit_emit. reflexivity.
Qed.

End Rejected.

Lemma of_match_script_ok (name : string) (d : st7703_panel_desc) :
  In (name, d) st7703_of_match -> script_ok (init_sequence d) = true.
Proof.
  intros Hin. apply in_of_match in Hin.
  destruct Hin as [H|[H|H]]; injection H as _ ->; vm_compute; reflexivity.
Qed.

(** C3.  Take any supported model and let [wr] be write number [k + 1] of
    its script ([k] counts from 0).  The transport's answer to a write is
    what the macro holds in [int ret].  If the transport accepts the [k]
    writes before [wr] and rejects [wr] with a negative [code], then the
    script and [st7703_enable] both return [code]; the bus has seen exactly
    the first [k + 1] writes of the script, the last being the rejected
    one; neither exit-sleep-mode nor display-on has been sent; and the
    driver instance, its [prepared] flag included, is untouched. *)
Theorem enable_script_write_rejected :
  forall (p : platform) (name : string) (d : st7703_panel_desc) (w : world)
         (k : nat) (wr : op) (code : Z),
    In (name, d) st7703_of_match ->
    desc (ctx w) = d ->
    nth_error (writes (init_sequence d)) k = Some wr ->
    (forall i c, (i < k)%nat ->
       nth_error (writes (init_sequence d)) i = Some c ->
       0 <= to_int (dsi_transfer p (List.length (bus_ops (log w)) + i) c)) ->
    to_int (dsi_transfer p (List.length (bus_ops (log w)) + k) wr) = code ->
    code < 0 ->
    exists done,
      run (init_sequence d) p w = (code, emit (done ++ [wr]) w) /\
      st7703_enable p w =
        (code, emit (done ++ [wr; dev_err "Panel init sequence failed: %d\n"
                                          code]) w) /\
      bus_ops (done ++ [wr; dev_err "Panel init sequence failed: %d\n" code])
        = firstn (S k) (writes (init_sequence d)) /\
      ~ In mipi_dsi_dcs_exit_sleep_mode
           (done ++ [wr; dev_err "Panel init sequence failed: %d\n" code]) /\
      ~ In mipi_dsi_dcs_set_display_on
           (done ++ [wr; dev_err "Panel init sequence failed: %d\n" code]) /\
      ctx (snd (st7703_enable p w)) = ctx w.
Proof.
  intros p name d w k wr code Hin Hd Hk Hacc Hrej Hneg.
  pose proof (of_match_script_ok name d Hin) as Hok.
  destruct (run_rejected p (init_sequence d) Hok w k wr code Hk Hacc Hrej Hneg)
    as [done [rest [Hmap [Hbo Hrun]]]].
  assert (Hen : st7703_enable p w =
                (code, emit (done ++ [wr; dev_err
                       "Panel init sequence failed: %d\n" code]) w)).
  { unfold st7703_enable, Bind, get_desc. rewrite Hd, Hrun.
    destruct (Z.ltb_spec code 0) as [_|Hge]; [|lia].
    unfold perform, Return. rewrite emit_emit, <- app_assoc. reflexivity. }
  assert (Hsplit : done ++ [wr; dev_err "Panel init sequence failed: %d\n" code]
                   = (done ++ [wr])
                     ++ [dev_err "Panel init sequence failed: %d\n" code]).
  { now rewrite <- app_assoc. }
  assert (Hno : forall c, In c (done ++ [wr; dev_err
                  "Panel init sequence failed: %d\n" code]) ->
                c <> mipi_dsi_dcs_exit_sleep_mode /\
                c <> mipi_dsi_dcs_set_display_on).
  { intros c Hc. rewrite Hsplit in Hc. apply in_app_or in Hc.
    destruct Hc as [Hc|[<-|[]]]; [|split; discriminate].
    apply (script_ok_no_builtin (init_sequence d) c Hok).
    rewrite Hmap. apply in_app_or in Hc. apply in_or_app.
    destruct Hc as [Hc|[<-|[]]]; [left; exact Hc|right; left; reflexivity]. }
  exists done. repeat split.
  - exact Hrun.
  - exact Hen.
  - rewrite Hsplit, bus_ops_app, Hbo. simpl. now rewrite app_nil_r.
  - intros Hc. apply Hno in Hc. destruct Hc as [Hc _]. now apply Hc.
  - intros Hc. apply Hno in Hc. destruct Hc as [_ Hc]. now apply Hc.
  - rewrite Hen. reflexivity.
Qed.

(** The host answers the third write with [2 ^ 32 - 5]: stored in
    [int ret] that is -5, and the script stops. *)
Lemma enable_script_write_rejected_witness :
  nth_error (writes (init_sequence xbd599_desc)) 2
    = Some (mipi_dsi_dcs_write ST7703_CMD_SETPOWER_EXT [0x25; 0x22; 0x20; 0x03])
  /\ exists done,
      run (init_sequence xbd599_desc) (reject_at 2 (2 ^ 32 - 5))
          (with_prepared true (probed xbd599_desc))
      = (-5, emit (done ++ [mipi_dsi_dcs_write ST7703_CMD_SETPOWER_EXT
                              [0x25; 0x22; 0x20; 0x03]])
                  (with_prepared true (probed xbd599_desc))) /\
      st7703_enable (reject_at 2 (2 ^ 32 - 5))
                    (with_prepared true (probed xbd599_desc))
      = (-5, emit (done ++ [mipi_dsi_dcs_write ST7703_CMD_SETPOWER_EXT
                              [0x25; 0x22; 0x20; 0x03];
                            dev_err "Panel init sequence failed: %d\n" (-5)])
                  (with_prepared true (probed xbd599_desc))) /\
      bus_ops (done ++ [mipi_dsi_dcs_write ST7703_CMD_SETPOWER_EXT
                          [0x25; 0x22; 0x20; 0x03];
                        dev_err "Panel init sequence failed: %d\n" (-5)])
      = firstn 3 (writes (init_sequence xbd599_desc)) /\
      ~ In mipi_dsi_dcs_exit_sleep_mode
           (done ++ [mipi_dsi_dcs_write ST7703_CMD_SETPOWER_EXT
                       [0x25; 0x22; 0x20; 0x03];
                     dev_err "Panel init sequence failed: %d\n" (-5)]) /\
      ~ In mipi_dsi_dcs_set_display_on
           (done ++ [mipi_dsi_dcs_write ST7703_CMD_SETPOWER_EXT
                       [0x25; 0x22; 0x20; 0x03];
                     dev_err "Panel init sequence failed: %d\n" (-5)]) /\
      ctx (snd (st7703_enable (reject_at 2 (2 ^ 32 - 5))
                  (with_prepared true (probed xbd599_desc))))
      = ctx (with_prepared true (probed xbd599_desc)).
Proof.
  split; [reflexivity|].
  apply (enable_script_write_rejected (reject_at 2 (2 ^ 32 - 5))
           "xingbangda,xbd599"
           xbd599_desc (with_prepared true (probed xbd599_desc)) 2%nat
           (mipi_dsi_dcs_write ST7703_CMD_SETPOWER_EXT [0x25; 0x22; 0x20; 0x03])
           (-5)).
  - simpl; auto.
  - reflexivity.
  - reflexivity.
  - intros i c Hi _. destruct i as [|[|i]]; [vm_compute; discriminate ..|lia].
  - reflexivity.
  - lia.
Defined.

(** ** prepare and unprepare *)

Lemma prepare_when_prepared (p : platform) (w : world) :
  prepared (ctx w) = true -> st7703_prepare p w = (0, w).
Proof.
  intros H. unfold st7703_prepare, Bind, get_prepared. now rewrite H.
Qed.

Lemma unprepare_when_unprepared (p : platform) (w : world) :
  prepared (ctx w) = false -> st7703_unprepare p w = (0, w).
Proof.
  intros H. unfold st7703_unprepare, Bind, get_prepared. now rewrite H.
Qed.

Lemma unprepare_when_prepared (p : platform) (w : world) :
  prepared (ctx w) = true ->
  st7703_unprepare p w =
    (0, with_prepared false
          (emit [gpiod_set_value_cansleep 1; regulator_disable iovcc;
                 regulator_disable vcc] w)).
Proof.
  intros H. unfold st7703_unprepare, Bind, get_prepared. rewrite H. simpl.
  unfold Bind, perform, set_prepared, Return. now rewrite !emit_emit.
Qed.

Lemma unprepare_returns_zero (p : platform) (w : world) :
  fst (st7703_unprepare p w) = 0.
Proof.
  destruct (prepared (ctx w)) eqn:H.
  - now rewrite unprepare_when_prepared.
  - now rewrite unprepare_when_unprepared.
Qed.

(** C4.  When prepare finds the panel unprepared, the vcc supply comes up
    and the iovcc supply fails with [e], prepare switches vcc off again and
    returns [e]: the calls made are exactly enable vcc, enable iovcc, the
    error message and disable vcc; the reset line is never driven and
    [prepared] stays false. *)
Theorem prepare_iovcc_failure_rolls_back :
  forall (p : platform) (w : world) (e : Z),
    prepared (ctx w) = false ->
    0 <= regulator_enable_ret p vcc ->
    regulator_enable_ret p iovcc = e ->
    e < 0 ->
    exists l,
      l = [dev_info "Resetting the panel\n";
           regulator_enable vcc;
           regulator_enable iovcc;
           dev_err "Failed to enable iovcc supply: %d\n" e;
           regulator_disable vcc] /\
      st7703_prepare p w = (e, emit l w) /\
      enabled l = [vcc; iovcc] /\
      disabled l = [vcc] /\
      filter is_reset l = [] /\
      prepared (ctx (snd (st7703_prepare p w))) = false.
Proof.
  intros p w e Hprep Hvcc Hio Hneg. subst e.
  assert (Heq : st7703_prepare p w =
                (regulator_enable_ret p iovcc,
                 emit [dev_info "Resetting the panel\n";
                       regulator_enable vcc; regulator_enable iovcc;
                       dev_err "Failed to enable iovcc supply: %d\n"
                               (regulator_enable_ret p iovcc);
                       regulator_disable vcc] w)).
  { unfold st7703_prepare, Bind at 1, get_prepared. rewrite Hprep.
    step_through. now rewrite !emit_emit. }
  eexists. split; [reflexivity|]. rewrite Heq.
  repeat split. exact Hprep.
Qed.

Lemma prepare_iovcc_failure_rolls_back_witness :
  exists l,
    l = [dev_info "Resetting the panel\n";
         regulator_enable vcc;
         regulator_enable iovcc;
         dev_err "Failed to enable iovcc supply: %d\n" (-19);
         regulator_disable vcc] /\
    st7703_prepare (supplies 0 (-19)) (probed atm0784_desc)
      = (-19, emit l (probed atm0784_desc)) /\
    enabled l = [vcc; iovcc] /\
    disabled l = [vcc] /\
    filter is_reset l = [] /\
    prepared (ctx (snd (st7703_prepare (supplies 0 (-19))
                          (probed atm0784_desc)))) = false.
Proof.
  apply (prepare_iovcc_failure_rolls_back (supplies 0 (-19))
           (probed atm0784_desc) (-19)).
  - reflexivity.
  - simpl. lia.
  - reflexivity.
  - lia.
Defined.

(** C8.  A prepare of an unprepared panel whose supplies both come up
    enables vcc and then iovcc; the unprepare that follows disables iovcc
    and then vcc, the reverse order.  A prepare of a prepared panel and an
    unprepare of an unprepared panel return 0 and leave the world as it
    was: no regulator, reset-line or bus call is made. *)
Theorem prepare_unprepare_supply_order :
  forall (p : platform) (w : world),
    prepared (ctx w) = false ->
    0 <= regulator_enable_ret p vcc ->
    0 <= regulator_enable_ret p iovcc ->
    exists on off,
      on = [dev_info "Resetting the panel\n";
            regulator_enable vcc;
            regulator_enable iovcc;
            gpiod_set_value_cansleep 1;
            usleep_range 20 40;
            gpiod_set_value_cansleep 0;
            msleep 20] /\
      off = [gpiod_set_value_cansleep 1;
             regulator_disable iovcc;
             regulator_disable vcc] /\
      st7703_prepare p w = (0, with_prepared true (emit on w)) /\
      st7703_unprepare p (with_prepared true (emit on w))
        = (0, with_prepared false (emit (on ++ off) w)) /\
      enabled on = [vcc; iovcc] /\
      disabled off = [iovcc; vcc] /\
      disabled off = rev (enabled on) /\
      (forall p' w', prepared (ctx w') = true ->
                     st7703_prepare p' w' = (0, w')) /\
      (forall p' w', prepared (ctx w') = false ->
                     st7703_unprepare p' w' = (0, w')).
Proof.
  intros p w Hprep Hvcc Hio.
  do 2 eexists. split; [reflexivity|]. split; [reflexivity|].
  split; [|split; [|repeat split]].
  - unfold st7703_prepare, Bind at 1, get_prepared. rewrite Hprep.
    step_through. now rewrite !emit_emit.
  - rewrite unprepare_when_prepared by reflexivity.
    unfold with_prepared, emit. simpl. now rewrite <- app_assoc.
  - intros p' w'. apply prepare_when_prepared.
  - intros p' w'. apply unprepare_when_unprepared.
Qed.

Lemma prepare_unprepare_supply_order_witness :
  exists on off,
    on = [dev_info "Resetting the panel\n";
          regulator_enable vcc;
          regulator_enable iovcc;
          gpiod_set_value_cansleep 1;
          usleep_range 20 40;
          gpiod_set_value_cansleep 0;
          msleep 20] /\
    off = [gpiod_set_value_cansleep 1;
           regulator_disable iovcc;
           regulator_disable vcc] /\
    st7703_prepare all_ok (probed xbd599_desc)
      = (0, with_prepared true (emit on (probed xbd599_desc))) /\
    st7703_unprepare all_ok (with_prepared true (emit on (probed xbd599_desc)))
      = (0, with_prepared false (emit (on ++ off) (probed xbd599_desc))) /\
    enabled on = [vcc; iovcc] /\
    disabled off = [iovcc; vcc] /\
    disabled off = rev (enabled on) /\
    (forall p' w', prepared (ctx w') = true ->
                   st7703_prepare p' w' = (0, w')) /\
    (forall p' w', prepared (ctx w') = false ->
                   st7703_unprepare p' w' = (0, w')).
Proof.
  apply (prepare_unprepare_supply_order all_ok (probed xbd599_desc)).
  - reflexivity.
  - simpl. lia.
  - simpl. lia.
Defined.

(** ** disable *)

(** What [st7703_disable] does, whatever the host answers: [r1] and [r2] are
    the host's answers to display-off and to enter-sleep-mode. *)
Lemma disable_eq (p : platform) (w : world) :
  st7703_disable p w =
  (0, emit (mipi_dsi_dcs_set_display_off ::
            (if dsi_transfer p (List.length (bus_ops (log w)))
                  mipi_dsi_dcs_set_display_off <? 0
             then [dev_err "Failed to turn off the display: %d\n"
                     (dsi_transfer p (List.length (bus_ops (log w)))
                        mipi_dsi_dcs_set_display_off)]
             else []) ++
            mipi_dsi_dcs_enter_sleep_mode ::
            (if dsi_transfer p (S (List.length (bus_ops (log w))))
                  mipi_dsi_dcs_enter_sleep_mode <? 0
             then [dev_err "Failed to enter sleep mode: %d\n"
                     (dsi_transfer p (S (List.length (bus_ops (log w))))
                        mipi_dsi_dcs_enter_sleep_mode)]
             else [])) w).
Proof.
  unfold st7703_disable. reduce_step.
  destruct (dsi_transfer p (List.length (bus_ops (log w)))
              mipi_dsi_dcs_set_display_off <? 0); reduce_step.
  - rewrite (bus_count_emit_silent (dev_err _ _)) by reflexivity.
    rewrite bus_count_emit_bus by reflexivity.
    destruct (dsi_transfer p (S (List.length (bus_ops (log w))))
                mipi_dsi_dcs_enter_sleep_mode <? 0); reduce_step;
      now rewrite !emit_emit.
  - rewrite bus_count_emit_bus by reflexivity.
    destruct (dsi_transfer p (S (List.length (bus_ops (log w))))
                mipi_dsi_dcs_enter_sleep_mode <? 0); reduce_step;
      now rewrite !emit_emit.
Qed.

(** C6.  disable always issues display-off and then enter-sleep-mode: the
    bus sees exactly these two commands whatever the host answers, and when
    display-off is rejected the only consequence is an error message logged
    before enter-sleep-mode is issued. *)
Theorem disable_attempts_both_commands :
  forall (p : platform) (w : world),
    exists l,
      st7703_disable p w = (0, emit l w) /\
      bus_ops l = [mipi_dsi_dcs_set_display_off;
                   mipi_dsi_dcs_enter_sleep_mode] /\
      (forall r1,
         dsi_transfer p (List.length (bus_ops (log w)))
           mipi_dsi_dcs_set_display_off = r1 ->
         r1 < 0 ->
         exists tail,
           l = [mipi_dsi_dcs_set_display_off;
                dev_err "Failed to turn off the display: %d\n" r1;
                mipi_dsi_dcs_enter_sleep_mode] ++ tail).
Proof.
  intros p w. eexists. split; [apply disable_eq|]. split.
  - destruct (_ <? 0); destruct (_ <? 0); reflexivity.
  - intros r1 Hr1 Hneg. rewrite Hr1.
    destruct (Z.ltb_spec r1 0) as [_|Hge]; [|lia].
    eexists. reflexivity.
Qed.

Lemma disable_attempts_both_commands_witness :
  exists l tail,
    st7703_disable (reject_at 0 (-5))
                   (with_prepared true (probed jh057n00900_panel_desc))
    = (0, emit l (with_prepared true (probed jh057n00900_panel_desc))) /\
    bus_ops l = [mipi_dsi_dcs_set_display_off;
                 mipi_dsi_dcs_enter_sleep_mode] /\
    l = [mipi_dsi_dcs_set_display_off;
         dev_err "Failed to turn off the display: %d\n" (-5);
         mipi_dsi_dcs_enter_sleep_mode] ++ tail.
Proof.
  destruct (disable_attempts_both_commands (reject_at 0 (-5))
              (with_prepared true (probed jh057n00900_panel_desc)))
    as [l [Hrun [Hbus Hfail]]].
  destruct (Hfail (-5)) as [tail Htail]; [reflexivity|lia|].
  exists l, tail. repeat split; assumption.
Defined.

(** C10.  disable returns 0 whatever the two bus writes return, both
    rejected included; it leaves the driver instance as it found it, and
    what it does is the same whether [prepared] is set or not. *)
Theorem disable_returns_zero_ignores_prepared :
  forall (p : platform) (w : world),
    fst (st7703_disable p w) = 0 /\
    ctx (snd (st7703_disable p w)) = ctx w /\
    (forall b,
       st7703_disable p (with_prepared b w)
       = (0, with_prepared b (snd (st7703_disable p w)))) /\
    (forall r1 r2,
       dsi_transfer p (List.length (bus_ops (log w)))
         mipi_dsi_dcs_set_display_off = r1 ->
       dsi_transfer p (S (List.length (bus_ops (log w))))
         mipi_dsi_dcs_enter_sleep_mode = r2 ->
       r1 < 0 -> r2 < 0 ->
       st7703_disable p w =
       (0, emit [mipi_dsi_dcs_set_display_off;
                 dev_err "Failed to turn off the display: %d\n" r1;
                 mipi_dsi_dcs_enter_sleep_mode;
                 dev_err "Failed to enter sleep mode: %d\n" r2] w)).
Proof.
  intros p w. repeat split.
  - now rewrite disable_eq.
  - now rewrite disable_eq.
  - intros b. now rewrite !disable_eq.
  - intros r1 r2 H1 H2 Hn1 Hn2. rewrite disable_eq, H1, H2.
    destruct (Z.ltb_spec r1 0); [|lia].
    destruct (Z.ltb_spec r2 0); [|lia]. reflexivity.
Qed.

Lemma disable_returns_zero_ignores_prepared_witness :
  st7703_disable (reject_all (-5)) (probed atm0784_desc)
  = (0, emit [mipi_dsi_dcs_set_display_off;
              dev_err "Failed to turn off the display: %d\n" (-5);
              mipi_dsi_dcs_enter_sleep_mode;
              dev_err "Failed to enter sleep mode: %d\n" (-5)]
             (probed atm0784_desc)).
Proof.
  apply (proj2 (proj2 (proj2 (disable_returns_zero_ignores_prepared
                                (reject_all (-5)) (probed atm0784_desc))))
           (-5) (-5)); solve [reflexivity | lia].
Defined.

(** ** enable *)

(** C7.  After a script that did not fail, enable waits 20 ms and issues
    exit-sleep-mode; if that is rejected it logs the error and returns the
    code at once.  Otherwise it waits 250 ms and issues display-on; if that
    returns anything but 0 it returns the value at once, without the 50 ms
    wait.  Otherwise it waits 50 ms, logs completion and returns 0. *)
Theorem enable_after_script :
  forall (p : platform) (w w1 : world) (r r1 r2 : Z),
    run (init_sequence (desc (ctx w))) p w = (r, w1) ->
    0 <= r ->
    dsi_transfer p (List.length (bus_ops (log w1)))
      mipi_dsi_dcs_exit_sleep_mode = r1 ->
    dsi_transfer p (S (List.length (bus_ops (log w1))))
      mipi_dsi_dcs_set_display_on = r2 ->
    (r1 < 0 ->
     st7703_enable p w =
     (r1, emit [msleep 20;
                mipi_dsi_dcs_exit_sleep_mode;
                dev_err "Failed to exit sleep mode: %d\n" r1] w1)) /\
    (0 <= r1 -> r2 <> 0 ->
     st7703_enable p w =
     (r2, emit [msleep 20;
                mipi_dsi_dcs_exit_sleep_mode;
                msleep 250;
                mipi_dsi_dcs_set_display_on] w1)) /\
    (0 <= r1 -> r2 = 0 ->
     st7703_enable p w =
     (0, emit [msleep 20;
               mipi_dsi_dcs_exit_sleep_mode;
               msleep 250;
               mipi_dsi_dcs_set_display_on;
               msleep 50;
               dev_info "Panel init sequence done\n"] w1)).
Proof.
  intros p w w1 r r1 r2 Hrun Hr H1 H2.
  assert (Hstart :
    st7703_enable p w =
    (if r1 <? 0
     then (r1, emit [msleep 20; mipi_dsi_dcs_exit_sleep_mode;
                     dev_err "Failed to exit sleep mode: %d\n" r1] w1)
     else if negb (r2 =? 0)
     then (r2, emit [msleep 20; mipi_dsi_dcs_exit_sleep_mode;
                     msleep 250; mipi_dsi_dcs_set_display_on] w1)
     else (0, emit [msleep 20; mipi_dsi_dcs_exit_sleep_mode;
                    msleep 250; mipi_dsi_dcs_set_display_on;
                    msleep 50; dev_info "Panel init sequence done\n"] w1))).
  { unfold st7703_enable, Bind at 1, get_desc.
    unfold Bind at 1. rewrite Hrun.
    destruct (Z.ltb_spec r 0) as [Hlt|_]; [lia|].
    reduce_step.
    rewrite (bus_count_emit_silent (msleep 20)) by reflexivity.
    rewrite H1.
    destruct (r1 <? 0); reduce_step; [now rewrite !emit_emit|].
    rewrite (bus_count_emit_silent (msleep 250)) by reflexivity.
    rewrite bus_count_emit_bus by reflexivity.
    rewrite (bus_count_emit_silent (msleep 20)) by reflexivity.
    rewrite H2.
    destruct (r2 =? 0); reduce_step; now rewrite !emit_emit. }
  rewrite Hstart. repeat split.
  - intros Hneg. destruct (Z.ltb_spec r1 0); [reflexivity|lia].
  - intros Hge Hnz. destruct (Z.ltb_spec r1 0); [lia|].
    destruct (Z.eqb_spec r2 0); [contradiction|reflexivity].
  - intros Hge Hz. destruct (Z.ltb_spec r1 0); [lia|].
    destruct (Z.eqb_spec r2 0); [now subst r2|contradiction].
Qed.

Lemma enable_after_script_witness :
  run (init_sequence (desc (ctx (with_prepared true
                                   (probed jh057n00900_panel_desc)))))
      all_ok (with_prepared true (probed jh057n00900_panel_desc))
  = (0, emit (map op_of jh057n_init_sequence)
             (with_prepared true (probed jh057n00900_panel_desc))) /\
  st7703_enable all_ok (with_prepared true (probed jh057n00900_panel_desc))
  = (0, emit [msleep 20;
              mipi_dsi_dcs_exit_sleep_mode;
              msleep 250;
              mipi_dsi_dcs_set_display_on;
              msleep 50;
              dev_info "Panel init sequence done\n"]
             (emit (map op_of jh057n_init_sequence)
                   (with_prepared true (probed jh057n00900_panel_desc)))).
Proof.
  assert (Hrun :
    run (init_sequence (desc (ctx (with_prepared true
                                     (probed jh057n00900_panel_desc)))))
        all_ok (with_prepared true (probed jh057n00900_panel_desc))
    = (0, emit (map op_of jh057n_init_sequence)
               (with_prepared true (probed jh057n00900_panel_desc))))
    by reflexivity.
  split; [exact Hrun|].
  refine (proj2 (proj2 (enable_after_script all_ok _ _ 0 0 0 Hrun _ _ _)) _ _);
    solve [reflexivity | lia].
Defined.

(** ** Shutdown and removal *)

(** C1, as the code has it.  [st7703_shutdown] calls unprepare first and
    disable second, each once: on a prepared panel the reset line is
    asserted and both supplies are switched off before display-off and
    enter-sleep-mode are put on the bus.  [st7703_remove] starts with the
    same calls. *)
Theorem shutdown_unprepares_before_disable :
  (forall p w,
     st7703_shutdown p w
     = (tt, snd (st7703_disable p (snd (st7703_unprepare p w))))) /\
  (forall d l0,
     log (snd (st7703_shutdown all_ok
                 {| ctx := {| prepared := true; desc := d |}; log := l0 |}))
     = l0 ++ [gpiod_set_value_cansleep 1;
              regulator_disable iovcc;
              regulator_disable vcc;
              mipi_dsi_dcs_set_display_off;
              mipi_dsi_dcs_enter_sleep_mode]) /\
  (forall d l0,
     log (snd (st7703_remove all_ok
                 {| ctx := {| prepared := true; desc := d |}; log := l0 |}))
     = l0 ++ [gpiod_set_value_cansleep 1;
              regulator_disable iovcc;
              regulator_disable vcc;
              mipi_dsi_dcs_set_display_off;
              mipi_dsi_dcs_enter_sleep_mode;
              mipi_dsi_detach;
              drm_panel_remove;
              debugfs_remove_recursive]).
Proof.
  assert (Hgen : forall p w,
            st7703_shutdown p w
            = (tt, snd (st7703_disable p (snd (st7703_unprepare p w))))).
  { intros p w.
    unfold st7703_shutdown, drm_panel_unprepare, drm_panel_disable.
    cbn [unprepare disable st7703_drm_funcs]. unfold Bind at 1.
    pose proof (unprepare_returns_zero p w) as Hz.
    destruct (st7703_unprepare p w) as [r w']. simpl in Hz. subst r.
    cbn [snd]. change (0 <? 0) with false. reduce_step.
    rewrite disable_eq. change (0 <? 0) with false. reflexivity. }
  split; [exact Hgen|]. split.
  - intros d l0. rewrite Hgen.
    rewrite unprepare_when_prepared by reflexivity.
    rewrite disable_eq. simpl. rewrite <- !app_assoc. reflexivity.
  - intros d l0. unfold st7703_remove, Bind at 1. rewrite Hgen.
    rewrite unprepare_when_prepared by reflexivity.
    rewrite disable_eq. simpl. rewrite <- !app_assoc. reflexivity.
Qed.

(** The debugfs handler in the same file tears the panel down in the other
    order: disable, then unprepare. *)
Lemma allpixelson_set_disables_before_unprepare (val : Z) (w : world) :
  allpixelson_set val all_ok w =
  (0, snd (st7703_enable all_ok
        (snd (st7703_prepare all_ok
           (snd (st7703_unprepare all_ok
              (snd (st7703_disable all_ok
                 (emit [dev_dbg "Setting all pixels on\n";
                        mipi_dsi_generic_write [ST7703_CMD_ALL_PIXEL_ON];
                        msleep (to_unsigned_int (u64_mul val 1000))]
                       w))))))))).
Proof.
  unfold allpixelson_set, exec. reduce_step. cbn [dsi_transfer all_ok].
  cbv zeta. change (to_int 0) with 0.
  cbv beta iota delta [Z.ltb Z.compare]. rewrite !emit_emit. simpl app.
  unfold drm_panel_disable, drm_panel_unprepare, drm_panel_prepare,
    drm_panel_enable.
  cbn [disable unprepare prepare enable st7703_drm_funcs].
  destruct (st7703_disable all_ok _) as [r1 w1]. cbn [snd].
  destruct (st7703_unprepare all_ok w1) as [r2 w2]. cbn [snd].
  destruct (st7703_prepare all_ok w2) as [r3 w3]. cbn [snd].
  destruct (st7703_enable all_ok w3) as [r4 w4]. reflexivity.
Qed.

(** ** The count bytes of the atm0784 script *)

(** C9, as the code has it.  The writes of the atm0784 script group into 17
    blocks, each opened by a two-byte write [count, command]; in 16 of them
    the count byte is one plus the number of one-byte writes that follow,
    but the SETMIPI block (command 0xBA) announces 0x1C = 28 and is followed
    by 26 one-byte writes only. *)
Theorem atm0784_setmipi_count_mismatch :
  exists bs,
    group (map wire_bytes (writes atm0784_init_sequence)) = Some ([], bs) /\
    List.length bs = 17%nat /\
    filter (fun b => negb (count_matches b)) bs
    = [{| count := 0x1C;
          command := ST7703_CMD_SETMIPI;
          params := [0x81; 0x05; 0xF9; 0x0E; 0x0E; 0x20; 0x00; 0x00;
                     0x00; 0x00; 0x00; 0x00; 0x00; 0x44; 0x25; 0x00;
                     0x90; 0x0A; 0x00; 0x00; 0x01; 0x4F; 0x01; 0x00;
                     0x00; 0x37] |}] /\
    List.length (filter count_matches bs) = 16%nat /\
    1 + Z.of_nat 26 <> 0x1C.
Proof.
  eexists. split; [vm_compute; reflexivity|].
  repeat split; try (vm_compute; reflexivity). lia.
Qed.

(** * Further properties of the driver *)

(** ** Scripts fail fast *)

Lemma run_completes_or_stops (p : platform) (body : list stmt) :
  forall w,
    run body p w = (0, emit (map op_of body) w) \/
    exists done s rest,
      body = done ++ s :: rest /\
      checked s = true /\
      fst (run body p w) < 0 /\
      fst (run body p w)
      = to_int (dsi_transfer p
                  (List.length (bus_ops (log w ++ map op_of done)))
                  (op_of s)) /\
      snd (run body p w) = emit (map op_of (done ++ [s])) w.
Proof.
  induction body as [|s body' IH]; intros w.
  - left. simpl. now rewrite emit_nil.
  - rewrite run_cons.
    destruct (checked s && (to_int (reply p (log w) (op_of s)) <? 0))
      eqn:Hstop.
    + apply andb_prop in Hstop. destruct Hstop as [Hc Hneg].
      apply Z.ltb_lt in Hneg.
      right. exists [], s, body'. simpl. rewrite app_nil_r.
      repeat split; auto. now rewrite (reply_checked p s (log w) Hc).
    + destruct (IH (emit [op_of s] w))
        as [Hall | [done [s' [rest [Hbody [Hc [Hneg [Hcode Hlog]]]]]]]].
      * left. now rewrite Hall, emit_emit.
      * right. exists (s :: done), s', rest. subst body'.
        repeat split; auto.
        -- rewrite Hcode. simpl. now rewrite <- app_assoc.
        -- rewrite Hlog, emit_emit. reflexivity.
Qed.

(** A script has exactly two outcomes, whatever the host answers.  Either
    it returns 0 having made the call of every statement, or it stops at a
    macro whose write the host answered with a value that is negative once
    stored in [int ret]: it returns that stored value, having made the
    calls up to and including that write and none after. *)
Theorem run_outcome :
  forall (p : platform) (body : list stmt) (w : world),
    run body p w = (0, emit (map op_of body) w) \/
    exists done s rest,
      body = done ++ s :: rest /\
      checked s = true /\
      fst (run body p w) < 0 /\
      fst (run body p w)
      = to_int (dsi_transfer p
                  (List.length (bus_ops (log w ++ map op_of done)))
                  (op_of s)) /\
      snd (run body p w) = emit (map op_of (done ++ [s])) w.
Proof.
  intros p body w.
  destruct (run_completes_or_stops p body w) as [Hall | Hstop].
  - left. exact Hall.
  - right. exact Hstop.
Qed.

Lemma run_ctx (p : platform) (body : list stmt) (w : world) :
  ctx (snd (run body p w)) = ctx w.
Proof. destruct (run_prefix p body w) as [n Hn]. now rewrite Hn. Qed.

(** A script behaves the same whether [prepared] is set or not. *)
Lemma run_with_prepared (p : platform) (b : bool) (body : list stmt) :
  forall w,
    run body p (with_prepared b w)
    = (fst (run body p w), with_prepared b (snd (run body p w))).
Proof.
  induction body as [|s body' IH]; intros w.
  - reflexivity.
  - rewrite !run_cons.
    change (log (with_prepared b w)) with (log w).
    change (emit [op_of s] (with_prepared b w))
      with (with_prepared b (emit [op_of s] w)).
    destruct (checked s && (to_int (reply p (log w) (op_of s)) <? 0)).
    + reflexivity.
    + apply IH.
Qed.

(** ** enable, whatever the platform answers *)

Lemma enable_eq (p : platform) (w : world) :
  st7703_enable p w =
  (let (r, w1) := run (init_sequence (desc (ctx w))) p w in
   if r <? 0
   then (r, emit [dev_err "Panel init sequence failed: %d\n" r] w1)
   else
     let r1 := dsi_transfer p (List.length (bus_ops (log w1)))
                 mipi_dsi_dcs_exit_sleep_mode in
     let r2 := dsi_transfer p (S (List.length (bus_ops (log w1))))
                 mipi_dsi_dcs_set_display_on in
     if r1 <? 0
     then (r1, emit [msleep 20; mipi_dsi_dcs_exit_sleep_mode;
                     dev_err "Failed to exit sleep mode: %d\n" r1] w1)
     else if negb (r2 =? 0)
     then (r2, emit [msleep 20; mipi_dsi_dcs_exit_sleep_mode;
                     msleep 250; mipi_dsi_dcs_set_display_on] w1)
     else (0, emit [msleep 20; mipi_dsi_dcs_exit_sleep_mode;
                    msleep 250; mipi_dsi_dcs_set_display_on;
                    msleep 50; dev_info "Panel init sequence done\n"] w1)).
Proof.
  unfold st7703_enable, Bind at 1, get_desc. unfold Bind at 1.
  destruct (run (init_sequence (desc (ctx w))) p w) as [r w1].
  destruct (r <? 0); reduce_step; [reflexivity|].
  rewrite (bus_count_emit_silent (msleep 20)) by reflexivity.
  destruct (dsi_transfer p (List.length (bus_ops (log w1)))
              mipi_dsi_dcs_exit_sleep_mode <? 0);
    reduce_step; [now rewrite !emit_emit|].
  rewrite (bus_count_emit_silent (msleep 250)) by reflexivity.
  rewrite bus_count_emit_bus by reflexivity.
  rewrite (bus_count_emit_silent (msleep 20)) by reflexivity.
  destruct (dsi_transfer p (S (List.length (bus_ops (log w1))))
              mipi_dsi_dcs_set_display_on =? 0);
    reduce_step; now rewrite !emit_emit.
Qed.

(** A 0 from enable is a guarantee: the whole script was issued, then the
    20 ms wait, exit-sleep-mode, the 250 ms wait, display-on and the 50 ms
    wait, in that order and with nothing else in between. *)
Theorem enable_zero_means_complete :
  forall (p : platform) (w : world),
    fst (st7703_enable p w) = 0 ->
    snd (st7703_enable p w)
    = emit (map op_of (init_sequence (desc (ctx w))) ++
            [msleep 20; mipi_dsi_dcs_exit_sleep_mode;
             msleep 250; mipi_dsi_dcs_set_display_on;
             msleep 50; dev_info "Panel init sequence done\n"]) w.
Proof.
  intros p w. rewrite enable_eq.
  destruct (run_completes_or_stops p (init_sequence (desc (ctx w))) w)
    as [Hall | [done [s [rest [_ [_ [Hneg _]]]]]]].
  - rewrite Hall. change (0 <? 0) with false. cbv beta iota zeta.
    destruct (Z.ltb_spec (dsi_transfer p
                (List.length (bus_ops (log (emit (map op_of
                   (init_sequence (desc (ctx w)))) w))))
                mipi_dsi_dcs_exit_sleep_mode) 0) as [H1|H1].
    + cbn [fst]. intros H0. lia.
    + destruct (Z.eqb_spec (dsi_transfer p
                  (S (List.length (bus_ops (log (emit (map op_of
                     (init_sequence (desc (ctx w)))) w)))))
                  mipi_dsi_dcs_set_display_on) 0) as [H2|H2];
        cbn [fst snd negb].
      * intros _. now rewrite emit_emit.
      * intros H0. contradiction.
  - destruct (run (init_sequence (desc (ctx w))) p w) as [r w1].
    simpl in Hneg. destruct (Z.ltb_spec r 0) as [_|Hge]; [|lia].
    cbn [fst]. intros H0. lia.
Qed.

Lemma enable_zero_means_complete_witness :
  snd (st7703_enable all_ok (with_prepared true (probed xbd599_desc)))
  = emit (map op_of xbd599_init_sequence ++
          [msleep 20; mipi_dsi_dcs_exit_sleep_mode;
           msleep 250; mipi_dsi_dcs_set_display_on;
           msleep 50; dev_info "Panel init sequence done\n"])
         (with_prepared true (probed xbd599_desc)).
Proof.
  apply (enable_zero_means_complete all_ok
           (with_prepared true (probed xbd599_desc))).
  reflexivity.
Defined.

Lemma enable_ctx (p : platform) (w : world) :
  ctx (snd (st7703_enable p w)) = ctx w.
Proof.
  rewrite enable_eq.
  pose proof (run_ctx p (init_sequence (desc (ctx w))) w) as Hctx.
  destruct (run (init_sequence (desc (ctx w))) p w) as [r w1].
  simpl in Hctx. cbv zeta.
  repeat match goal with
         | |- context [if ?c then _ else _] => destruct c
         end; exact Hctx.
Qed.

(** enable never looks at [prepared] and never changes the driver
    instance: called on an unprepared panel it issues the same calls and
    returns the same value as on a prepared one. *)
Theorem enable_ignores_prepared :
  forall (p : platform) (w : world),
    ctx (snd (st7703_enable p w)) = ctx w /\
    forall b,
      st7703_enable p (with_prepared b w)
      = (fst (st7703_enable p w), with_prepared b (snd (st7703_enable p w))).
Proof.
  intros p w. split.
  - apply enable_ctx.
  - intros b. rewrite !enable_eq.
    change (desc (ctx (with_prepared b w))) with (desc (ctx w)).
    rewrite run_with_prepared.
    destruct (run (init_sequence (desc (ctx w))) p w) as [r w1].
    cbn [fst snd]. cbv zeta.
    change (log (with_prepared b w1)) with (log w1).
    repeat match goal with
           | |- context [if ?c then _ else _] => destruct c
           end; reflexivity.
Qed.

(** ** prepare, whatever the supplies answer *)

Lemma prepare_eq (p : platform) (w : world) :
  prepared (ctx w) = false ->
  st7703_prepare p w =
  if regulator_enable_ret p vcc <? 0
  then (regulator_enable_ret p vcc,
        emit [dev_info "Resetting the panel\n";
              regulator_enable vcc;
              dev_err "Failed to enable vcc supply: %d\n"
                      (regulator_enable_ret p vcc)] w)
  else if regulator_enable_ret p iovcc <? 0
  then (regulator_enable_ret p iovcc,
        emit [dev_info "Resetting the panel\n";
              regulator_enable vcc;
              regulator_enable iovcc;
              dev_err "Failed to enable iovcc supply: %d\n"
                      (regulator_enable_ret p iovcc);
              regulator_disable vcc] w)
  else (0, with_prepared true
             (emit [dev_info "Resetting the panel\n";
                    regulator_enable vcc;
                    regulator_enable iovcc;
                    gpiod_set_value_cansleep 1;
                    usleep_range 20 40;
                    gpiod_set_value_cansleep 0;
                    msleep 20] w)).
Proof.
  intros Hprep. unfold st7703_prepare, Bind at 1, get_prepared.
  rewrite Hprep. reduce_step.
  destruct (regulator_enable_ret p vcc <? 0); reduce_step;
    [now rewrite !emit_emit|].
  destruct (regulator_enable_ret p iovcc <? 0); reduce_step;
    now rewrite !emit_emit.
Qed.

(** When the vcc supply itself fails to come up, prepare stops there: it
    returns the regulator's code after the one failed enable and an error
    message.  The iovcc supply is never requested, nothing is disabled,
    the reset line is not driven and the driver instance is untouched. *)
Theorem prepare_vcc_failure :
  forall (p : platform) (w : world) (e : Z),
    prepared (ctx w) = false ->
    regulator_enable_ret p vcc = e ->
    e < 0 ->
    st7703_prepare p w
    = (e, emit [dev_info "Resetting the panel\n";
                regulator_enable vcc;
                dev_err "Failed to enable vcc supply: %d\n" e] w).
Proof.
  intros p w e Hprep He Hneg. rewrite (prepare_eq p w Hprep), He.
  destruct (Z.ltb_spec e 0); [reflexivity|lia].
Qed.

Lemma prepare_vcc_failure_witness :
  st7703_prepare (supplies (-22) 0) (probed jh057n00900_panel_desc)
  = (-22, emit [dev_info "Resetting the panel\n";
                regulator_enable vcc;
                dev_err "Failed to enable vcc supply: %d\n" (-22)]
               (probed jh057n00900_panel_desc)).
Proof.
  apply (prepare_vcc_failure (supplies (-22) 0)
           (probed jh057n00900_panel_desc) (-22));
    solve [reflexivity | lia].
Defined.

(** On an unprepared panel prepare has two outcomes only.  It returns 0
    and has set [prepared]; or it returns a negative code, the driver
    instance is exactly as before, and the reset line was never driven. *)
Theorem prepare_outcome :
  forall (p : platform) (w : world),
    prepared (ctx w) = false ->
    (fst (st7703_prepare p w) = 0 /\
     prepared (ctx (snd (st7703_prepare p w))) = true) \/
    (fst (st7703_prepare p w) < 0 /\
     exists l, snd (st7703_prepare p w) = emit l w /\
               filter is_reset l = []).
Proof.
  intros p w Hprep. rewrite (prepare_eq p w Hprep).
  destruct (Z.ltb_spec (regulator_enable_ret p vcc) 0) as [Hv|Hv].
  - right. split; [exact Hv|]. eexists. split; reflexivity.
  - destruct (Z.ltb_spec (regulator_enable_ret p iovcc) 0) as [Hi|Hi].
    + right. split; [exact Hi|]. eexists. split; reflexivity.
    + left. split; reflexivity.
Qed.

Lemma prepare_outcome_witness :
  (fst (st7703_prepare (supplies 0 (-19)) (probed xbd599_desc)) = 0 /\
   prepared (ctx (snd (st7703_prepare (supplies 0 (-19))
                         (probed xbd599_desc)))) = true) \/
  (fst (st7703_prepare (supplies 0 (-19)) (probed xbd599_desc)) < 0 /\
   exists l,
     snd (st7703_prepare (supplies 0 (-19)) (probed xbd599_desc))
     = emit l (probed xbd599_desc) /\
     filter is_reset l = []).
Proof.
  apply (prepare_outcome (supplies 0 (-19)) (probed xbd599_desc)).
  reflexivity.
Defined.

(** ** One whole cycle *)

(** prepare, enable, disable, unprepare on a platform where nothing fails
    (the supplies come up, every bus transfer returns a non-negative
    [int], display-on returns 0): all four return 0, the calls made are, in this order, the power-up
    sequence, the whole init script, the two enable commands with their
    three waits, display-off and enter-sleep-mode, and the power-down
    sequence; the driver instance ends as it began. *)
Theorem lifecycle_round_trip :
  forall (p : platform) (w : world),
    prepared (ctx w) = false ->
    0 <= regulator_enable_ret p vcc ->
    0 <= regulator_enable_ret p iovcc ->
    (forall n c, 0 <= dsi_transfer p n c < 2 ^ 31) ->
    (forall n, dsi_transfer p n mipi_dsi_dcs_set_display_on = 0) ->
    exists w1 w2 w3 w4,
      st7703_prepare p w = (0, w1) /\
      st7703_enable p w1 = (0, w2) /\
      st7703_disable p w2 = (0, w3) /\
      st7703_unprepare p w3 = (0, w4) /\
      log w4
      = log w ++
        [dev_info "Resetting the panel\n";
         regulator_enable vcc;
         regulator_enable iovcc;
         gpiod_set_value_cansleep 1;
         usleep_range 20 40;
         gpiod_set_value_cansleep 0;
         msleep 20] ++
        map op_of (init_sequence (desc (ctx w))) ++
        [msleep 20;
         mipi_dsi_dcs_exit_sleep_mode;
         msleep 250;
         mipi_dsi_dcs_set_display_on;
         msleep 50;
         dev_info "Panel init sequence done\n";
         mipi_dsi_dcs_set_display_off;
         mipi_dsi_dcs_enter_sleep_mode;
         gpiod_set_value_cansleep 1;
         regulator_disable iovcc;
         regulator_disable vcc] /\
      ctx w4 = ctx w.
Proof.
  intros p w Hprep Hv Hi Hint Hon.
  assert (Hbus : forall n c, 0 <= dsi_transfer p n c)
    by (intros n c; apply Hint).
  assert (Hacc : forall n c, 0 <= to_int (dsi_transfer p n c)).
  { intros n c. rewrite to_int_small; [apply Hint|].
    specialize (Hint n c). change (2 ^ 31) with 2147483648 in *. lia. }
  do 4 eexists. split; [|split; [|split; [|split; [|split]]]].
  - rewrite (prepare_eq p w Hprep).
    destruct (Z.ltb_spec (regulator_enable_ret p vcc) 0); [lia|].
    destruct (Z.ltb_spec (regulator_enable_ret p iovcc) 0); [lia|].
    reflexivity.
  - rewrite enable_eq, (run_accepted p _ Hacc).
    change (0 <? 0) with false. cbv beta iota zeta. rewrite Hon.
    repeat match goal with
           | |- context [?x <? 0] =>
               destruct (Z.ltb_spec x 0);
               [match goal with
                | H : dsi_transfer p ?n ?c < 0 |- _ =>
                    specialize (Hbus n c); lia
                end|]
           end.
    reflexivity.
  - rewrite disable_eq.
    repeat match goal with
           | |- context [?x <? 0] =>
               destruct (Z.ltb_spec x 0);
               [match goal with
                | H : dsi_transfer p ?n ?c < 0 |- _ =>
                    specialize (Hbus n c); lia
                end|]
           end.
    reflexivity.
  - rewrite unprepare_when_prepared by reflexivity. reflexivity.
  - simpl. rewrite <- !app_assoc. reflexivity.
  - destruct w as [[pr d] l]. simpl in *. now subst pr.
Qed.

Lemma lifecycle_round_trip_witness :
  exists w1 w2 w3 w4,
    st7703_prepare all_ok (probed atm0784_desc) = (0, w1) /\
    st7703_enable all_ok w1 = (0, w2) /\
    st7703_disable all_ok w2 = (0, w3) /\
    st7703_unprepare all_ok w3 = (0, w4) /\
    log w4
    = log (probed atm0784_desc) ++
      [dev_info "Resetting the panel\n";
       regulator_enable vcc;
       regulator_enable iovcc;
       gpiod_set_value_cansleep 1;
       usleep_range 20 40;
       gpiod_set_value_cansleep 0;
       msleep 20] ++
      map op_of (init_sequence (desc (ctx (probed atm0784_desc)))) ++
      [msleep 20;
       mipi_dsi_dcs_exit_sleep_mode;
       msleep 250;
       mipi_dsi_dcs_set_display_on;
       msleep 50;
       dev_info "Panel init sequence done\n";
       mipi_dsi_dcs_set_display_off;
       mipi_dsi_dcs_enter_sleep_mode;
       gpiod_set_value_cansleep 1;
       regulator_disable iovcc;
       regulator_disable vcc] /\
    ctx w4 = ctx (probed atm0784_desc).
Proof.
  apply (lifecycle_round_trip all_ok (probed atm0784_desc)).
  - reflexivity.
  - simpl. lia.
  - simpl. lia.
  - intros n c. split; [simpl; lia|reflexivity].
  - intros n. reflexivity.
Defined.

(** ** Shutdown and removal, whatever the platform answers *)

Lemma shutdown_eq (p : platform) (w : world) :
  st7703_shutdown p w
  = (tt, snd (st7703_disable p (snd (st7703_unprepare p w)))).
Proof.
  unfold st7703_shutdown, drm_panel_unprepare, drm_panel_disable.
  cbn [unprepare disable st7703_drm_funcs]. unfold Bind at 1.
  pose proof (unprepare_returns_zero p w) as Hz.
  destruct (st7703_unprepare p w) as [r w']. simpl in Hz. subst r.
  cbn [snd]. change (0 <? 0) with false. reduce_step.
  rewrite disable_eq. change (0 <? 0) with false. reflexivity.
Qed.

Lemma disable_ctx (p : platform) (w : world) :
  ctx (snd (st7703_disable p w)) = ctx w.
Proof. now rewrite disable_eq. Qed.

(** After shutdown the panel is unprepared, in whatever state shutdown
    found it and whatever the collaborators answered; the bound descriptor
    is unchanged. *)
Theorem shutdown_leaves_unprepared :
  forall (p : platform) (w : world),
    prepared (ctx (snd (st7703_shutdown p w))) = false /\
    desc (ctx (snd (st7703_shutdown p w))) = desc (ctx w) /\
    prepared (ctx (snd (st7703_remove p w))) = false.
Proof.
  intros p w.
  assert (H : prepared (ctx (snd (st7703_shutdown p w))) = false /\
              desc (ctx (snd (st7703_shutdown p w))) = desc (ctx w)).
  { rewrite shutdown_eq. cbn [snd]. rewrite disable_ctx.
    destruct (prepared (ctx w)) eqn:Hp.
    - rewrite unprepare_when_prepared by exact Hp. split; reflexivity.
    - rewrite unprepare_when_unprepared by exact Hp. split; [exact Hp|reflexivity]. }
  destruct H as [H1 H2]. repeat split; [exact H1|exact H2|].
  unfold st7703_remove, Bind at 1.
  destruct (st7703_shutdown p w) as [u w1]. simpl in H1.
  reduce_step. unfold st7703_debugfs_remove. reduce_step.
  destruct (dsi_detach_ret p <? 0); reduce_step; exact H1.
Qed.

(** Shutdown of a panel that is not prepared still puts display-off and
    enter-sleep-mode on the bus, and nothing else: no supply and no reset
    line is touched, and the driver instance is unchanged. *)
Theorem shutdown_unprepared_only_bus :
  forall (p : platform) (w : world),
    prepared (ctx w) = false ->
    exists l,
      st7703_shutdown p w = (tt, emit l w) /\
      bus_ops l = [mipi_dsi_dcs_set_display_off;
                   mipi_dsi_dcs_enter_sleep_mode] /\
      filter is_power l = [].
Proof.
  intros p w Hp. rewrite shutdown_eq.
  rewrite unprepare_when_unprepared by exact Hp. cbn [snd].
  rewrite disable_eq. cbn [snd]. eexists. split; [reflexivity|].
  split; destruct (_ <? 0); destruct (_ <? 0); reflexivity.
Qed.

Lemma shutdown_unprepared_only_bus_witness :
  exists l,
    st7703_shutdown (reject_all (-5)) (probed jh057n00900_panel_desc)
    = (tt, emit l (probed jh057n00900_panel_desc)) /\
    bus_ops l = [mipi_dsi_dcs_set_display_off;
                 mipi_dsi_dcs_enter_sleep_mode] /\
    filter is_power l = [].
Proof.
  apply (shutdown_unprepared_only_bus (reject_all (-5))
           (probed jh057n00900_panel_desc)).
  reflexivity.
Defined.

(** remove cannot fail: it returns 0 whatever the collaborators answer.
    After the shutdown calls it always detaches from the DSI host, removes
    the panel and removes the debugfs directory, in that order; a failed
    detach only adds an error message. *)
Theorem remove_always_completes :
  forall (p : platform) (w : world),
    st7703_remove p w
    = (0, emit ([mipi_dsi_detach] ++
                (if dsi_detach_ret p <? 0
                 then [dev_err "Failed to detach from DSI host: %d\n"
                               (dsi_detach_ret p)]
                 else []) ++
                [drm_panel_remove; debugfs_remove_recursive])
               (snd (st7703_shutdown p w))).
Proof.
  intros p w. unfold st7703_remove, Bind at 1.
  destruct (st7703_shutdown p w) as [u w1]. cbn [snd].
  reduce_step. unfold st7703_debugfs_remove. reduce_step.
  destruct (dsi_detach_ret p <? 0); reduce_step; now rewrite !emit_emit.
Qed.

(** ** The debugfs attribute *)

Lemma allpixelson_eq (val : Z) (p : platform) (w : world) :
  allpixelson_set val p w =
  if to_int (dsi_transfer p (List.length (bus_ops (log w)))
               (mipi_dsi_generic_write [ST7703_CMD_ALL_PIXEL_ON])) <? 0
  then (to_int (dsi_transfer p (List.length (bus_ops (log w)))
                  (mipi_dsi_generic_write [ST7703_CMD_ALL_PIXEL_ON])),
        emit [dev_dbg "Setting all pixels on\n";
              mipi_dsi_generic_write [ST7703_CMD_ALL_PIXEL_ON]] w)
  else
    (0, snd (st7703_enable p
          (snd (st7703_prepare p
             (snd (st7703_unprepare p
                (snd (st7703_disable p
                   (emit [dev_dbg "Setting all pixels on\n";
                          mipi_dsi_generic_write [ST7703_CMD_ALL_PIXEL_ON];
                          msleep (to_unsigned_int (u64_mul val 1000))]
                         w))))))))).
Proof.
  unfold allpixelson_set, exec. reduce_step. cbv zeta.
  rewrite (bus_count_emit_silent (dev_dbg _)) by reflexivity.
  destruct (to_int (dsi_transfer p (List.length (bus_ops (log w)))
              (mipi_dsi_generic_write [ST7703_CMD_ALL_PIXEL_ON])) <? 0);
    reduce_step; rewrite !emit_emit; simpl app; [reflexivity|].
  unfold drm_panel_disable, drm_panel_unprepare, drm_panel_prepare,
    drm_panel_enable.
  cbn [disable unprepare prepare enable st7703_drm_funcs].
  destruct (st7703_disable p _) as [r1 w1]. cbn [snd].
  destruct (st7703_unprepare p w1) as [r2 w2]. cbn [snd].
  destruct (st7703_prepare p w2) as [r3 w3]. cbn [snd].
  destruct (st7703_enable p w3) as [r4 w4]. reflexivity.
Qed.

(** If the host's answer to the all-pixels-on write is negative once
    stored in the macro's [int ret], [allpixelson_set] returns that stored
    code at once: it does not sleep and does not cycle the panel, and the
    driver instance is unchanged. *)
Theorem allpixelson_set_write_rejected :
  forall (val : Z) (p : platform) (w : world) (code : Z),
    to_int (dsi_transfer p (List.length (bus_ops (log w)))
              (mipi_dsi_generic_write [ST7703_CMD_ALL_PIXEL_ON])) = code ->
    code < 0 ->
    allpixelson_set val p w
    = (code, emit [dev_dbg "Setting all pixels on\n";
                   mipi_dsi_generic_write [ST7703_CMD_ALL_PIXEL_ON]] w).
Proof.
  intros val p w code Hc Hneg. rewrite allpixelson_eq, Hc.
  destruct (Z.ltb_spec code 0); [reflexivity|lia].
Qed.

Lemma allpixelson_set_write_rejected_witness :
  allpixelson_set 3 (reject_at 0 (-110)) (probed xbd599_desc)
  = (-110, emit [dev_dbg "Setting all pixels on\n";
                 mipi_dsi_generic_write [ST7703_CMD_ALL_PIXEL_ON]]
                (probed xbd599_desc)).
Proof.
  apply (allpixelson_set_write_rejected 3 (reject_at 0 (-110))
           (probed xbd599_desc) (-110)); solve [reflexivity | lia].
Defined.

(** Once the all-pixels-on write is accepted (the answer stored in
    [int ret] is not negative), [allpixelson_set] returns 0 no matter what
    follows.  It sleeps, then calls disable, unprepare, prepare and enable
    in that order, each on the world the previous one left, and looks at
    none of their results: a prepare that fails is still followed by
    enable. *)
Theorem allpixelson_set_ignores_results :
  forall (val : Z) (p : platform) (w : world),
    0 <= to_int (dsi_transfer p (List.length (bus_ops (log w)))
                   (mipi_dsi_generic_write [ST7703_CMD_ALL_PIXEL_ON])) ->
    allpixelson_set val p w
    = (0, snd (st7703_enable p
            (snd (st7703_prepare p
               (snd (st7703_unprepare p
                  (snd (st7703_disable p
                     (emit [dev_dbg "Setting all pixels on\n";
                            mipi_dsi_generic_write [ST7703_CMD_ALL_PIXEL_ON];
                            msleep (to_unsigned_int (u64_mul val 1000))]
                           w))))))))).
Proof.
  intros val p w Hok. rewrite allpixelson_eq.
  destruct (Z.ltb_spec (to_int (dsi_transfer p
              (List.length (bus_ops (log w)))
              (mipi_dsi_generic_write [ST7703_CMD_ALL_PIXEL_ON]))) 0);
    [lia|reflexivity].
Qed.

(** With the vcc supply dead, the re-prepare fails, yet the init script is
    sent and 0 is returned. *)
Lemma allpixelson_set_ignores_results_witness :
  fst (allpixelson_set 1 (supplies (-22) 0)
         (with_prepared true (probed jh057n00900_panel_desc))) = 0 /\
  prepared (ctx (snd (allpixelson_set 1 (supplies (-22) 0)
                        (with_prepared true
                           (probed jh057n00900_panel_desc))))) = false /\
  List.length
    (bus_ops (log (snd (allpixelson_set 1 (supplies (-22) 0)
                          (with_prepared true
                             (probed jh057n00900_panel_desc))))))
  = 19%nat.
Proof.
  rewrite (allpixelson_set_ignores_results 1 (supplies (-22) 0)
             (with_prepared true (probed jh057n00900_panel_desc)));
    [|vm_compute; discriminate].
  repeat split.
Defined.

(** The delay handed to [msleep] is [val] seconds in milliseconds exactly
    when [val] is at most 4294967; a larger [val] is cut down by the
    conversion of the 64-bit product to [unsigned int]. *)
Theorem allpixelson_set_delay_exact :
  forall val : Z,
    0 <= val < 2 ^ 64 ->
    (to_unsigned_int (u64_mul val 1000) = val * 1000 <-> val <= 4294967) /\
    0 <= to_unsigned_int (u64_mul val 1000) < 2 ^ 32.
Proof.
  intros val Hval. unfold to_unsigned_int, u64_mul.
  assert (H32 : 0 < 2 ^ 32) by reflexivity.
  assert (H64 : 0 < 2 ^ 64) by reflexivity.
  assert (Hdiv : (2 ^ 32 | 2 ^ 64)) by (exists (2 ^ 32); reflexivity).
  rewrite (Z.mod_mod_divide (val * 1000) (2 ^ 64) (2 ^ 32) Hdiv).
  pose proof (Z.mod_pos_bound (val * 1000) (2 ^ 32) H32) as Hb.
  split; [|exact Hb].
  change (2 ^ 32) with 4294967296 in *.
  split.
  - intros Heq. rewrite Heq in Hb. lia.
  - intros Hle. apply Z.mod_small. lia.
Qed.

Lemma allpixelson_set_delay_exact_witness :
  to_unsigned_int (u64_mul 4294968 1000) <> 4294968 * 1000 /\
  to_unsigned_int (u64_mul 4294968 1000) = 704.
Proof.
  split; [|reflexivity].
  intros Heq.
  apply (proj1 (proj1 (allpixelson_set_delay_exact 4294968
                         ltac:(split; [lia|reflexivity])))) in Heq.
  lia.
Defined.

(** ** The [prepared] flag and the regulator calls *)

Lemma supply_balance_app (p : platform) (r : regulator) (l1 l2 : list op) :
  supply_balance p r (l1 ++ l2)
  = supply_balance p r l1 + supply_balance p r l2.
Proof.
  unfold supply_balance.
  induction l1 as [|c l1 IH]; simpl; [reflexivity|].
  rewrite IH. lia.
Qed.

Lemma reset_fold (l : list op) :
  forall st,
    fold_left (fun st c => match c with
                           | gpiod_set_value_cansleep v => Some v
                           | _ => st
                           end) l st
    = match reset_line l with Some v => Some v | None => st end.
Proof.
  unfold reset_line.
  induction l as [|c l IH]; intros st; [reflexivity|].
  simpl. rewrite IH. rewrite (IH (match c with
                                  | gpiod_set_value_cansleep v => Some v
                                  | _ => None
                                  end)).
  destruct (fold_left _ l None); [reflexivity|].
  destruct c; reflexivity.
Qed.

Lemma reset_line_app (l1 l2 : list op) :
  reset_line (l1 ++ l2)
  = match reset_line l2 with Some v => Some v | None => reset_line l1 end.
Proof.
  unfold reset_line at 1. rewrite fold_left_app.
  fold (reset_line l1). apply reset_fold.
Qed.

(** Calls that are no power calls change neither a supply nor the reset
    line. *)
Lemma quiet_power (p : platform) (l : list op) :
  filter is_power l = [] ->
  (forall r, supply_balance p r l = 0) /\ reset_line l = None.
Proof.
  induction l as [|c l IH]; intros Hq; [split; reflexivity|].
  simpl in Hq. destruct (is_power c) eqn:Hc; [discriminate|].
  destruct (IH Hq) as [Hs Hr]. split.
  - intros r. change (c :: l) with ([c] ++ l).
    rewrite supply_balance_app, Hs.
    destruct c; simpl in *; try discriminate; reflexivity.
  - change (c :: l) with ([c] ++ l). rewrite reset_line_app, Hr.
    destruct c; simpl in *; try discriminate; reflexivity.
Qed.

Lemma consistent_emit_quiet (p : platform) (l : list op) (w : world) :
  filter is_power l = [] -> consistent p w -> consistent p (emit l w).
Proof.
  intros Hq [Hs Hr]. destruct (quiet_power p l Hq) as [Hqs Hqr].
  split.
  - intros r. simpl. rewrite supply_balance_app, Hqs, Hs. lia.
  - intros Hp. simpl. rewrite reset_line_app, Hqr. now apply Hr.
Qed.

Lemma filter_firstn_nil {A} (f : A -> bool) (l : list A) :
  filter f l = [] -> forall n, filter f (firstn n l) = [].
Proof.
  induction l as [|a l IH]; intros Hq n; destruct n; try reflexivity.
  simpl in *. destruct (f a); [discriminate|]. now apply IH.
Qed.

Lemma enable_quiet (p : platform) (w : world) :
  filter is_power (map op_of (init_sequence (desc (ctx w)))) = [] ->
  exists l, snd (st7703_enable p w) = emit l w /\ filter is_power l = [].
Proof.
  intros Hq. rewrite enable_eq.
  destruct (run_prefix p (init_sequence (desc (ctx w))) w) as [n Hn].
  pose proof (filter_firstn_nil is_power _ Hq n) as Hqn.
  destruct (run (init_sequence (desc (ctx w))) p w) as [r w1].
  simpl in Hn. subst w1. cbv zeta.
  repeat match goal with
         | |- context [if ?c then _ else _] => destruct c
         end;
    cbn [snd]; rewrite emit_emit; eexists; (split; [reflexivity|]);
    rewrite filter_app, Hqn; reflexivity.
Qed.

Lemma disable_quiet (p : platform) (w : world) :
  exists l, snd (st7703_disable p w) = emit l w /\ filter is_power l = [].
Proof.
  rewrite disable_eq. eexists. split; [reflexivity|].
  destruct (_ <? 0); destruct (_ <? 0); reflexivity.
Qed.

Lemma leb_of_ltb (x : Z) : (x <? 0) = false -> (0 <=? x) = true.
Proof. intros H. apply Z.ltb_ge in H. now apply Z.leb_le. Qed.

Lemma leb_of_ltb_neg (x : Z) : (x <? 0) = true -> (0 <=? x) = false.
Proof. intros H. apply Z.ltb_lt in H. apply Z.leb_gt. exact H. Qed.

Lemma prepare_consistent (p : platform) (w : world) :
  consistent p w -> consistent p (snd (st7703_prepare p w)).
Proof.
  intros Hc. destruct (prepared (ctx w)) eqn:Hp.
  - now rewrite prepare_when_prepared.
  - rewrite (prepare_eq p w Hp). destruct Hc as [Hs _]. rewrite Hp in Hs.
    destruct (regulator_enable_ret p vcc <? 0) eqn:Hv.
    + pose proof (leb_of_ltb_neg _ Hv) as Hv'. split.
      * intros r. simpl. rewrite supply_balance_app, Hs, Hp.
        destruct r; simpl; rewrite ?Hv'; reflexivity.
      * simpl. intros Hp'. congruence.
    + pose proof (leb_of_ltb _ Hv) as Hv'.
      destruct (regulator_enable_ret p iovcc <? 0) eqn:Hi.
      * pose proof (leb_of_ltb_neg _ Hi) as Hi'. split.
        -- intros r. simpl. rewrite supply_balance_app, Hs, Hp.
           destruct r; simpl; rewrite ?Hv', ?Hi'; reflexivity.
        -- simpl. intros Hp'. congruence.
      * pose proof (leb_of_ltb _ Hi) as Hi'. split.
        -- intros r. simpl. rewrite supply_balance_app, Hs.
           destruct r; simpl; rewrite ?Hv', ?Hi'; reflexivity.
        -- intros _. simpl. rewrite reset_line_app. reflexivity.
Qed.

Lemma unprepare_consistent (p : platform) (w : world) :
  consistent p w -> consistent p (snd (st7703_unprepare p w)).
Proof.
  intros Hc. destruct (prepared (ctx w)) eqn:Hp.
  - rewrite (unprepare_when_prepared p w Hp).
    destruct Hc as [Hs _]. rewrite Hp in Hs. split.
    + intros r. simpl. rewrite supply_balance_app, Hs.
      destruct r; reflexivity.
    + simpl. intros Hp'. discriminate Hp'.
  - now rewrite unprepare_when_unprepared.
Qed.

Lemma enable_consistent (p : platform) (w : world) :
  filter is_power (map op_of (init_sequence (desc (ctx w)))) = [] ->
  consistent p w -> consistent p (snd (st7703_enable p w)).
Proof.
  intros Hq Hc. destruct (enable_quiet p w Hq) as [l [-> Hl]].
  now apply consistent_emit_quiet.
Qed.

Lemma disable_consistent (p : platform) (w : world) :
  consistent p w -> consistent p (snd (st7703_disable p w)).
Proof.
  intros Hc. destruct (disable_quiet p w) as [l [-> Hl]].
  now apply consistent_emit_quiet.
Qed.

Lemma prepare_desc (p : platform) (w : world) :
  desc (ctx (snd (st7703_prepare p w))) = desc (ctx w).
Proof.
  destruct (prepared (ctx w)) eqn:Hp.
  - now rewrite prepare_when_prepared.
  - rewrite (prepare_eq p w Hp).
    destruct (_ <? 0); [reflexivity|]. destruct (_ <? 0); reflexivity.
Qed.

Lemma unprepare_desc (p : platform) (w : world) :
  desc (ctx (snd (st7703_unprepare p w))) = desc (ctx w).
Proof.
  destruct (prepared (ctx w)) eqn:Hp.
  - now rewrite unprepare_when_prepared.
  - now rewrite unprepare_when_unprepared.
Qed.

Lemma enable_desc (p : platform) (w : world) :
  desc (ctx (snd (st7703_enable p w))) = desc (ctx w).
Proof. now rewrite enable_ctx. Qed.

Lemma disable_desc (p : platform) (w : world) :
  desc (ctx (snd (st7703_disable p w))) = desc (ctx w).
Proof. now rewrite disable_ctx. Qed.

(** One call of any entry point keeps the flag truthful and the
    descriptor bound. *)
Lemma enter_consistent (p : platform) (d : st7703_panel_desc) (e : entry)
      (w : world) :
  filter is_power (map op_of (init_sequence d)) = [] ->
  desc (ctx w) = d ->
  consistent p w ->
  consistent p (snd (enter e p w)) /\ desc (ctx (snd (enter e p w))) = d.
Proof.
  intros Hq Hd Hc. subst d.
  destruct e as [| | | | |val]; unfold enter.
  - unfold Bind. destruct (st7703_prepare p w) as [r w1] eqn:E.
    change w1 with (snd (r, w1)). rewrite <- E.
    split; [now apply prepare_consistent|apply prepare_desc].
  - unfold Bind. destruct (st7703_enable p w) as [r w1] eqn:E.
    change w1 with (snd (r, w1)). rewrite <- E.
    split; [now apply enable_consistent|apply enable_desc].
  - unfold Bind. destruct (st7703_disable p w) as [r w1] eqn:E.
    change w1 with (snd (r, w1)). rewrite <- E.
    split; [now apply disable_consistent|apply disable_desc].
  - unfold Bind. destruct (st7703_unprepare p w) as [r w1] eqn:E.
    change w1 with (snd (r, w1)). rewrite <- E.
    split; [now apply unprepare_consistent|apply unprepare_desc].
  - rewrite shutdown_eq. cbn [snd]. split.
    + apply disable_consistent. now apply unprepare_consistent.
    + now rewrite disable_desc, unprepare_desc.
  - unfold Bind, Return. rewrite allpixelson_eq.
    destruct (_ <? 0); cbn [snd].
    + split; [now apply consistent_emit_quiet|reflexivity].
    + set (w0 := emit [dev_dbg "Setting all pixels on\n";
                       mipi_dsi_generic_write [ST7703_CMD_ALL_PIXEL_ON];
                       msleep (to_unsigned_int (u64_mul val 1000))] w).
      assert (H0 : consistent p w0) by now apply consistent_emit_quiet.
      assert (Hd : desc (ctx (snd (st7703_prepare p
                     (snd (st7703_unprepare p
                        (snd (st7703_disable p w0))))))) = desc (ctx w)).
      { now rewrite prepare_desc, unprepare_desc, disable_desc. }
      split.
      * apply enable_consistent; [now rewrite Hd|].
        apply prepare_consistent, unprepare_consistent.
        now apply disable_consistent.
      * now rewrite enable_desc, Hd.
Qed.

(** The regulator calls stay balanced.  Take a supported model, a
    platform (whose regulators, as the model has them, answer every enable
    the same way) and a world whose log agrees with the [prepared] flag:
    for each supply, successful enables exceed disable calls by one while
    the flag is set and by none while it is clear, and while the flag is
    set the last reset-GPIO write was 0.  A freshly probed instance, with
    its empty log, is such a world.  After any sequence of calls to
    prepare, enable, disable, unprepare, shutdown and the debugfs
    attribute, in any order, log and flag still agree and the same
    descriptor is bound.  So the driver never calls [regulator_disable]
    without holding a successful enable, and never clears [prepared]
    while holding one. *)
Theorem power_state_invariant :
  forall (p : platform) (name : string) (d : st7703_panel_desc)
         (es : list entry) (w : world),
    In (name, d) st7703_of_match ->
    desc (ctx w) = d ->
    consistent p w ->
    consistent p (snd (enter_all es p w)) /\
    desc (ctx (snd (enter_all es p w))) = d.
Proof.
  intros p name d es w Hin.
  assert (Hq : filter is_power (map op_of (init_sequence d)) = []).
  { apply in_of_match in Hin.
    destruct Hin as [H|[H|H]]; injection H as _ ->; vm_compute; reflexivity. }
  clear Hin. revert w.
  induction es as [|e es IH]; intros w Hd Hc.
  - simpl. auto.
  - simpl. unfold Bind.
    destruct (enter_consistent p d e w Hq Hd Hc) as [Hc1 Hd1].
    destruct (enter e p w) as [u w1]. simpl in Hc1, Hd1.
    now apply IH.
Qed.

(** From a fresh probe: an enable before any prepare, a prepare, an
    unprepare, a second prepare, the debugfs attribute (a whole power
    cycle) and a disable leave the panel prepared, with one enable held on each supply and the
    reset line at 0. *)
Lemma power_state_invariant_witness :
  consistent all_ok (probed xbd599_desc) /\
  consistent all_ok
    (snd (enter_all [call_enable; call_prepare; call_unprepare;
                     call_prepare; call_allpixelson 2; call_disable]
            all_ok (probed xbd599_desc))) /\
  prepared (ctx (snd (enter_all [call_enable; call_prepare; call_unprepare;
                                 call_prepare; call_allpixelson 2;
                                 call_disable]
                        all_ok (probed xbd599_desc)))) = true /\
  supply_balance all_ok vcc
    (log (snd (enter_all [call_enable; call_prepare; call_unprepare;
                          call_prepare; call_allpixelson 2; call_disable]
                 all_ok (probed xbd599_desc)))) = 1 /\
  reset_line
    (log (snd (enter_all [call_enable; call_prepare; call_unprepare;
                          call_prepare; call_allpixelson 2; call_disable]
                 all_ok (probed xbd599_desc)))) = Some 0.
Proof.
  assert (H0 : consistent all_ok (probed xbd599_desc)).
  { split; [intros r; reflexivity|]. simpl. discriminate. }
  split; [exact H0|].
  destruct (power_state_invariant all_ok "xingbangda,xbd599" xbd599_desc
              [call_enable; call_prepare; call_unprepare;
               call_prepare; call_allpixelson 2; call_disable]
              (probed xbd599_desc)) as [Hc _].
  - simpl. auto.
  - reflexivity.
  - exact H0.
  - split; [exact Hc|].
    assert (Hp : prepared (ctx (snd (enter_all
                   [call_enable; call_prepare; call_unprepare;
                    call_prepare; call_allpixelson 2; call_disable]
                   all_ok (probed xbd599_desc)))) = true)
      by (vm_compute; reflexivity).
    split; [exact Hp|]. destruct Hc as [Hs Hr]. split.
    + rewrite (Hs vcc), Hp. reflexivity.
    + exact (Hr Hp).
Defined.

(** ** Binding a device *)

(** When every collaborator succeeds, probe returns 0.  It leaves the DSI
    device configured with the descriptor's mode flags, pixel format and
    lane count, and as driver data an unprepared instance bound to the
    descriptor: the instance of [probed].  The panel is added before the
    attach and the debugfs entries are created last. *)
Theorem probe_success :
  forall (d : st7703_panel_desc) (e : Probe.env) (s : Probe.device),
    Probe.all_succeed e = true ->
    Probe.st7703_probe d e s
    = (0, {| Probe.dsi := {| Probe.dsi_mode_flags := mode_flags d;
                            Probe.dsi_format := format d;
                            Probe.dsi_lanes := lanes d |};
             Probe.drvdata := Some (ctx (probed d));
             Probe.calls :=
               Probe.calls s ++
               [Probe.devm_kzalloc;
                Probe.devm_gpiod_get "reset" Probe.GPIOD_OUT_LOW;
                Probe.mipi_dsi_set_drvdata;
                Probe.of_device_get_match_data;
                Probe.dev_info "lanes: %d\n";
                Probe.dev_info "format: %d\n";
                Probe.dev_info "mode_flags: %lu\n";
                Probe.devm_regulator_get "vcc";
                Probe.devm_regulator_get "iovcc";
                Probe.drm_panel_init;
                Probe.drm_panel_of_backlight;
                Probe.drm_panel_add;
                Probe.mipi_dsi_attach;
                Probe.dev_info "%ux%u@%u %ubpp dsi %udl - ready\n";
                Probe.debugfs_create_dir Probe.DRV_NAME;
                Probe.debugfs_create_file "allpixelson" 384] |}).
Proof.
  intros d e s Hok. unfold Probe.all_succeed in Hok.
  repeat (apply andb_prop in Hok; destruct Hok as [Hok ?]).
  probe_step.
  destruct (Probe.kzalloc_null e); [discriminate|]. probe_step.
  destruct (Probe.reset_gpio_err e); [discriminate|]. probe_step.
  destruct (Probe.regulator_err e "vcc"); [discriminate|]. probe_step.
  destruct (Probe.regulator_err e "iovcc"); [discriminate|]. probe_step.
  destruct (Probe.backlight_ret e =? 0); [|discriminate]. probe_step.
  destruct (Probe.attach_ret e <? 0); [discriminate|]. probe_step.
  rewrite <- !app_assoc. reflexivity.
Qed.

Lemma probe_success_witness :
  fst (Probe.st7703_probe atm0784_desc Probe.healthy
         (Probe.unbound Probe.blank_dsi)) = 0 /\
  Probe.dsi_lanes (Probe.dsi (snd (Probe.st7703_probe atm0784_desc
                     Probe.healthy (Probe.unbound Probe.blank_dsi)))) = 2 /\
  Probe.drvdata (snd (Probe.st7703_probe atm0784_desc Probe.healthy
                        (Probe.unbound Probe.blank_dsi)))
  = Some (ctx (probed atm0784_desc)).
Proof.
  rewrite (probe_success atm0784_desc Probe.healthy
             (Probe.unbound Probe.blank_dsi)) by reflexivity.
  repeat split.
Defined.

(** When some collaborator fails, probe returns a non-zero code and leaves
    nothing behind: no debugfs entry has been created, and a panel that
    was added has been removed again. *)
Theorem probe_failure_is_clean :
  forall (d : st7703_panel_desc) (e : Probe.env) (s : Probe.device),
    Probe.all_succeed e = false ->
    Probe.ENOMEM e <> 0 ->
    Probe.reset_gpio_err e <> Some 0 ->
    (forall id, Probe.regulator_err e id <> Some 0) ->
    exists l,
      Probe.calls (snd (Probe.st7703_probe d e s)) = Probe.calls s ++ l /\
      fst (Probe.st7703_probe d e s) <> 0 /\
      Probe.occurrences Probe.is_debugfs l = 0%nat /\
      Probe.occurrences Probe.is_panel_add l
      = Probe.occurrences Probe.is_panel_remove l.
Proof.
  intros d e s Hfail Hnomem Hgpio Hreg. unfold Probe.all_succeed in Hfail.
  pose proof (Hreg "vcc") as Hvcc. pose proof (Hreg "iovcc") as Hiovcc.
  probe_step.
  destruct (Probe.kzalloc_null e); probe_step.
  { probe_calls. repeat split. lia. }
  destruct (Probe.reset_gpio_err e) as [err|]; probe_step.
  { probe_calls. repeat split. intros ->. now apply Hgpio. }
  destruct (Probe.regulator_err e "vcc") as [ret|]; probe_step.
  { destruct (ret =? - Probe.EPROBE_DEFER e); probe_step;
      probe_calls; repeat split; intros ->; now apply Hvcc. }
  destruct (Probe.regulator_err e "iovcc") as [ret|]; probe_step.
  { destruct (ret =? - Probe.EPROBE_DEFER e); probe_step;
      probe_calls; repeat split; intros ->; now apply Hiovcc. }
  destruct (Z.eqb_spec (Probe.backlight_ret e) 0) as [Hb|Hb]; probe_step.
  2:{ probe_calls. repeat split. exact Hb. }
  destruct (Z.ltb_spec (Probe.attach_ret e) 0) as [Ha|Ha]; probe_step.
  2:{ simpl in Hfail. discriminate. }
  probe_calls. repeat split. lia.
Qed.

Lemma probe_failure_is_clean_witness :
  exists l,
    Probe.calls (snd (Probe.st7703_probe jh057n00900_panel_desc
                        (Probe.attach_fails (-517))
                        (Probe.unbound Probe.blank_dsi)))
    = Probe.calls (Probe.unbound Probe.blank_dsi) ++ l /\
    fst (Probe.st7703_probe jh057n00900_panel_desc
           (Probe.attach_fails (-517)) (Probe.unbound Probe.blank_dsi)) <> 0 /\
    Probe.occurrences Probe.is_debugfs l = 0%nat /\
    Probe.occurrences Probe.is_panel_add l
    = Probe.occurrences Probe.is_panel_remove l.
Proof.
  apply (probe_failure_is_clean jh057n00900_panel_desc
           (Probe.attach_fails (-517)) (Probe.unbound Probe.blank_dsi)).
  - reflexivity.
  - simpl. lia.
  - discriminate.
  - intros id. discriminate.
Defined.

(** A regulator lookup that fails makes probe return the lookup's error
    before the panel is initialised.  The failure is reported with one
    error message, except when the error is [-EPROBE_DEFER]: then nothing
    is logged as an error. *)
Theorem probe_regulator_lookup_fails :
  forall (d : st7703_panel_desc) (e : Probe.env) (s : Probe.device)
         (ret : Z),
    Probe.kzalloc_null e = false ->
    Probe.reset_gpio_err e = None ->
    (Probe.regulator_err e "vcc" = Some ret \/
     (Probe.regulator_err e "vcc" = None /\
      Probe.regulator_err e "iovcc" = Some ret)) ->
    exists l,
      Probe.calls (snd (Probe.st7703_probe d e s)) = Probe.calls s ++ l /\
      fst (Probe.st7703_probe d e s) = ret /\
      Probe.occurrences Probe.is_dev_err l
      = (if ret =? - Probe.EPROBE_DEFER e then 0%nat else 1%nat) /\
      ~ In Probe.drm_panel_init l.
Proof.
  intros d e s ret Hk Hg Hr. probe_step.
  rewrite Hk. probe_step. rewrite Hg. probe_step.
  destruct Hr as [Hv | [Hv Hi]].
  - rewrite Hv. probe_step.
    destruct (ret =? - Probe.EPROBE_DEFER e); probe_step;
      probe_calls; repeat split; simpl; intuition discriminate.
  - rewrite Hv. probe_step. rewrite Hi. probe_step.
    destruct (ret =? - Probe.EPROBE_DEFER e); probe_step;
      probe_calls; repeat split; simpl; intuition discriminate.
Qed.

Lemma probe_regulator_lookup_fails_witness :
  exists l,
    Probe.calls (snd (Probe.st7703_probe xbd599_desc
                        (Probe.regulator_missing "iovcc" (-517))
                        (Probe.unbound Probe.blank_dsi)))
    = Probe.calls (Probe.unbound Probe.blank_dsi) ++ l /\
    fst (Probe.st7703_probe xbd599_desc
           (Probe.regulator_missing "iovcc" (-517))
           (Probe.unbound Probe.blank_dsi)) = -517 /\
    Probe.occurrences Probe.is_dev_err l
    = (if -517 =? - Probe.EPROBE_DEFER
                      (Probe.regulator_missing "iovcc" (-517))
       then 0%nat else 1%nat) /\
    ~ In Probe.drm_panel_init l.
Proof.
  apply (probe_regulator_lookup_fails xbd599_desc
           (Probe.regulator_missing "iovcc" (-517))
           (Probe.unbound Probe.blank_dsi) (-517)).
  - reflexivity.
  - reflexivity.
  - right. split; reflexivity.
Defined.
